(** * FirebaseTest: the Firestore diagnostic component of the project dashboard

    A shallow embedding of [src/components/FirebaseTest.tsx].  The component
    keeps five pieces of React state, owns three asynchronous click handlers
    ([testConnection], [addTestData], [clearTestData]) and one effect that
    opens a live subscription while the connection status is ["success"].

    Firestore and the host clock are an interface ([Environment]); every
    theorem below is proved for an arbitrary implementation of it, and an
    in-memory implementation ([Mem]) is used to run the handlers on concrete
    stores.  A handler is a computation in a small monad [M] that threads the
    React state and the external world, records every setter call and every
    external call in a trace, and propagates JavaScript exceptions so that
    [try]/[catch]/[finally] can be written as in the source.  One handler run
    is modelled without interleaving of other handlers at its [await]s. *)

From Stdlib Require Import String Ascii ZArith List Bool Lia DecimalString.
Import ListNotations.
Local Open Scope string_scope.
Local Open Scope list_scope.

(** ** JavaScript values *)

(** The value bound by a [catch] clause or passed to an error callback. *)
Inductive Thrown : Type :=
| ErrorObject (msg : string)      (* an instance of Error, with its .message *)
| NonError (asString : string).   (* anything else, with String(error) *)

(** [error instanceof Error ? error.message : String(error)] *)
Definition describe (error : Thrown) : string :=
  match error with
  | ErrorObject msg => msg
  | NonError asString => asString
  end.

(** Template-literal interpolation of an array length, [`${xs.length}`]. *)
Definition String_of_length (n : nat) : string :=
  NilZero.string_of_uint (Nat.to_uint n).

(** Template-literal interpolation of an integral number, [`${Date.now()}`]. *)
Definition String_of_number (z : Z) : string :=
  NilZero.string_of_int (Z.to_int z).

(** [s.includes(search)]: [search] occurs in [s] as a contiguous substring. *)
Fixpoint includes (s search : string) : bool :=
  if String.prefix search s then true
  else match s with
       | EmptyString => false
       | String _ rest => includes rest search
       end.

(** Truthiness of a [string | undefined]: [undefined] and [""] are falsy. *)
Definition truthy (v : option string) : bool :=
  match v with
  | Some (String _ _) => true
  | _ => false
  end.

(** ** Data model *)

Module Note.
(** An element of [notes: any[]], as [addTestData] writes them. *)
Record t : Type := mk { text : string; status : string; due : string }.
End Note.

(** [interface TestProject] *)
Record TestProject : Type := mkTestProject {
  id : option string;
  name : string;
  location : string;
  pm : string;
  pic : string;
  picRole : string;
  due : string;
  notes : list Note.t;
  createdAt : option Z;
  updatedAt : option Z
}.

(** A document of a query snapshot: [doc.id] and [doc.data()].  The data is
    read at the shape the source casts it to; its [id] field is the document's
    own ["id"] property, when it has one. *)
Record QueryDocumentSnapshot : Type := mkDoc {
  doc_id : string;
  doc_data : TestProject
}.

(** [doc => ({ id: doc.id, ...doc.data() })]: the spread comes second, so an
    ["id"] property of the data replaces [doc.id]. *)
Definition project_of_doc (doc : QueryDocumentSnapshot) : TestProject :=
  let data := doc_data doc in
  {| id := match id data with Some v => Some v | None => Some (doc_id doc) end;
     name := name data;
     location := location data;
     pm := pm data;
     pic := pic data;
     picRole := picRole data;
     due := due data;
     notes := notes data;
     createdAt := createdAt data;
     updatedAt := updatedAt data |}.

(** [useState<"idle" | "testing" | "success" | "error">] *)
Inductive ConnectionStatus : Type := Idle | Testing | Success | Error.

(** [useState<"idle" | "connected" | "disconnected">] *)
Inductive RealTimeStatus : Type := RtIdle | Connected | Disconnected.

Definition ConnectionStatus_eqb (a b : ConnectionStatus) : bool :=
  match a, b with
  | Idle, Idle | Testing, Testing | Success, Success | Error, Error => true
  | _, _ => false
  end.

(** The five [useState] cells of the component. *)
Record State : Type := mkState {
  status : ConnectionStatus;
  message : string;
  testProjects : list TestProject;
  isLoading : bool;
  realTimeStatus : RealTimeStatus
}.

Definition initial : State :=
  {| status := Idle; message := ""; testProjects := []; isLoading := false;
     realTimeStatus := RtIdle |}.

Definition with_status (v : ConnectionStatus) (st : State) : State :=
  {| status := v; message := message st; testProjects := testProjects st;
     isLoading := isLoading st; realTimeStatus := realTimeStatus st |}.

Definition with_message (v : string) (st : State) : State :=
  {| status := status st; message := v; testProjects := testProjects st;
     isLoading := isLoading st; realTimeStatus := realTimeStatus st |}.

Definition with_testProjects (v : list TestProject) (st : State) : State :=
  {| status := status st; message := message st; testProjects := v;
     isLoading := isLoading st; realTimeStatus := realTimeStatus st |}.

Definition with_isLoading (v : bool) (st : State) : State :=
  {| status := status st; message := message st; testProjects := testProjects st;
     isLoading := v; realTimeStatus := realTimeStatus st |}.

Definition with_realTimeStatus (v : RealTimeStatus) (st : State) : State :=
  {| status := status st; message := message st; testProjects := testProjects st;
     isLoading := isLoading st; realTimeStatus := v |}.

(** ** The external collaborator *)

(** The function [onSnapshot] returns; a number tells two listeners apart. *)
Definition Unsubscribe : Type := nat.

(** What the component calls outside itself, over a world [W].  A rejected
    promise or a thrown exception is [inl]; building the collection, query and
    document references is part of the call that uses them. *)
Class Environment (W : Type) : Type := {
  (* getDocs(query(collection(db, "projects"), orderBy("createdAt", "desc"))) *)
  getDocs : W -> W * (Thrown + list QueryDocumentSnapshot);
  (* addDoc(collection(db, "projects"), data), giving docRef.id *)
  addDoc : TestProject -> W -> W * (Thrown + string);
  (* deleteDoc(doc(db, "projects", id)) *)
  deleteDoc : string -> W -> W * (Thrown + unit);
  (* onSnapshot(q, onData, onError) *)
  onSnapshot : W -> W * (Thrown + Unsubscribe);
  (* calling the function onSnapshot returned *)
  callUnsubscribe : Unsubscribe -> W -> W * (Thrown + unit);
  (* Date.now() and new Date(), in milliseconds *)
  Date_now : W -> W * Z
}.

(** ** Traces *)

Inductive Event : Type :=
| SetStatus (v : ConnectionStatus)
| SetMessage (v : string)
| SetTestProjects (v : list TestProject)
| SetIsLoading (v : bool)
| SetRealTimeStatus (v : RealTimeStatus)
| GetDocs (outcome : Thrown + list QueryDocumentSnapshot)
| AddDoc (data : TestProject) (outcome : Thrown + string)
| DeleteDoc (ident : string) (outcome : Thrown + unit)
| OnSnapshot (outcome : Thrown + Unsubscribe)
| Unsubscribed (handle : Unsubscribe) (outcome : Thrown + unit)
| ConsoleError (label : string) (error : Thrown).

Definition is_SetStatus (ev : Event) : bool :=
  match ev with SetStatus _ => true | _ => false end.

Definition is_SetMessage (ev : Event) : bool :=
  match ev with SetMessage _ => true | _ => false end.

Definition is_SetIsLoading (ev : Event) : bool :=
  match ev with SetIsLoading _ => true | _ => false end.

Definition is_GetDocs (ev : Event) : bool :=
  match ev with GetDocs _ => true | _ => false end.

Definition is_AddDoc (ev : Event) : bool :=
  match ev with AddDoc _ _ => true | _ => false end.

Definition is_DeleteDoc (ev : Event) : bool :=
  match ev with DeleteDoc _ _ => true | _ => false end.

Definition is_completed_delete (ev : Event) : bool :=
  match ev with DeleteDoc _ (inr _) => true | _ => false end.

Definition is_Unsubscribed (ev : Event) : bool :=
  match ev with Unsubscribed _ _ => true | _ => false end.

Definition is_established (ev : Event) : bool :=
  match ev with OnSnapshot (inr _) => true | _ => false end.

Definition is_external (ev : Event) : bool :=
  match ev with
  | GetDocs _ | AddDoc _ _ | DeleteDoc _ _ | OnSnapshot _ | Unsubscribed _ _ => true
  | _ => false
  end.

Definition count (p : Event -> bool) (tr : list Event) : nat :=
  length (filter p tr).

(** ** The handler monad *)

Section Component.

Context {W : Type} `{Environment W}.

(** A computation reads and writes the React state and the world, emits a
    trace, and either throws or returns. *)
Definition M (A : Type) : Type :=
  State * W -> (State * W) * list Event * (Thrown + A).

Definition ret {A} (a : A) : M A := fun e => (e, [], inr a).

Definition bind {A B} (m : M A) (f : A -> M B) : M B :=
  fun e =>
    let '(e1, t1, r) := m e in
    match r with
    | inl x => (e1, t1, inl x)
    | inr a => let '(e2, t2, r2) := f a e1 in (e2, t1 ++ t2, r2)
    end.

(** [try { body } catch (error) { handler }] *)
Definition try_catch {A} (body : M A) (handler : Thrown -> M A) : M A :=
  fun e =>
    let '(e1, t1, r) := body e in
    match r with
    | inl x => let '(e2, t2, r2) := handler x e1 in (e2, t1 ++ t2, r2)
    | inr a => (e1, t1, inr a)
    end.

(** [try { body } finally { final }] *)
Definition try_finally {A} (body : M A) (final : M unit) : M A :=
  fun e =>
    let '(e1, t1, r) := body e in
    let '(e2, t2, r2) := final e1 in
    (e2, t1 ++ t2, match r2 with inl x => inl x | inr _ => r end).

Notation "x <- m ;; k" := (bind m (fun x => k))
  (at level 61, m at next level, right associativity).
Notation "m ;; k" := (bind m (fun _ => k))
  (at level 61, right associativity).

(** [for (const x of xs) { body }] *)
Fixpoint forOf {A} (xs : list A) (body : A -> M unit) : M unit :=
  match xs with
  | [] => ret tt
  | x :: rest => body x ;; forOf rest body
  end.

(** A state setter: updates the cell and records the call. *)
Definition set (ev : Event) (f : State -> State) : M unit :=
  fun e => ((f (fst e), snd e), [ev], inr tt).

Definition setStatus (v : ConnectionStatus) : M unit :=
  set (SetStatus v) (with_status v).
Definition setMessage (v : string) : M unit :=
  set (SetMessage v) (with_message v).
Definition setTestProjects (v : list TestProject) : M unit :=
  set (SetTestProjects v) (with_testProjects v).
Definition setIsLoading (v : bool) : M unit :=
  set (SetIsLoading v) (with_isLoading v).
Definition setRealTimeStatus (v : RealTimeStatus) : M unit :=
  set (SetRealTimeStatus v) (with_realTimeStatus v).

Definition console_error (label : string) (error : Thrown) : M unit :=
  fun e => (e, [ConsoleError label error], inr tt).

(** An awaited external call: the world moves, the outcome is recorded, and a
    rejection is rethrown at the [await]. *)
Definition call {A} (op : W -> W * (Thrown + A)) (ev : Thrown + A -> Event) : M A :=
  fun e => let '(w, r) := op (snd e) in ((fst e, w), [ev r], r).

Definition now : M Z :=
  fun e => let '(w, t) := Date_now (snd e) in ((fst e, w), [], inr t).

(** ** The handlers *)

Definition testConnection : M unit :=
  setStatus Testing ;;
  setMessage "Testing Firebase connection..." ;;
  try_catch
    (querySnapshot <- call getDocs GetDocs ;;
     setStatus Success ;;
     setMessage ("✅ Firebase connected! Found "
                 ++ String_of_length (length querySnapshot)
                 ++ " projects in database.")%string ;;
     let projects := map project_of_doc querySnapshot in
     setTestProjects projects)
    (fun error =>
       setStatus Error ;;
       setMessage ("❌ Firebase connection failed: " ++ describe error)%string ;;
       console_error "Firebase connection error:" error).

(** The object literal [testProject] of [addTestData]. *)
Definition testProject (date_now : Z) : TestProject :=
  {| id := None;
     name := ("Test Project " ++ String_of_number date_now)%string;
     location := "Test Location";
     pm := "Test PM";
     pic := "Test PIC";
     picRole := "Test Role";
     due := "2026-12-31";
     notes := [ Note.mk "Test task 1" "progress" "2026-12-31";
                Note.mk "Test task 2" "done" "2026-12-30" ];
     createdAt := None;
     updatedAt := None |}.

(** [{ ...testProject, createdAt: new Date(), updatedAt: new Date() }] *)
Definition stamped (p : TestProject) (created updated : Z) : TestProject :=
  {| id := id p; name := name p; location := location p; pm := pm p;
     pic := pic p; picRole := picRole p; due := due p; notes := notes p;
     createdAt := Some created; updatedAt := Some updated |}.

Definition addTestData : M unit :=
  setIsLoading true ;;
  setMessage "Adding test project..." ;;
  try_finally
    (try_catch
       (date_now <- now ;;
        created <- now ;;
        updated <- now ;;
        docRef <- call (addDoc (stamped (testProject date_now) created updated))
                       (AddDoc (stamped (testProject date_now) created updated)) ;;
        setMessage ("✅ Test project added! ID: " ++ docRef)%string ;;
        testConnection)
       (fun error =>
          setMessage ("❌ Failed to add test project: " ++ describe error)%string ;;
          console_error "Add test data error:" error))
    (setIsLoading false).

(** [testProjects.filter(p => p.name.includes("Test Project"))] *)
Definition projectsToDelete (projects : list TestProject) : list TestProject :=
  filter (fun p => includes (name p) "Test Project") projects.

(** The body of the [for] loop of [clearTestData]. *)
Definition deleteProject (project : TestProject) : M unit :=
  match id project with
  | Some ident => if truthy (Some ident)
                  then call (deleteDoc ident) (DeleteDoc ident)
                  else ret tt
  | None => ret tt
  end.

(** [clearTestData] closes over the [testProjects] of the render that created
    it, which is its argument here. *)
Definition clearTestData (projects : list TestProject) : M unit :=
  setIsLoading true ;;
  setMessage "Clearing test data..." ;;
  try_finally
    (try_catch
       (forOf (projectsToDelete projects) deleteProject ;;
        setMessage ("✅ Cleared "
                    ++ String_of_length (length (projectsToDelete projects))
                    ++ " test projects")%string ;;
        testConnection)
       (fun error =>
          setMessage ("❌ Failed to clear test data: " ++ describe error)%string ;;
          console_error "Clear test data error:" error))
    (setIsLoading false).

(** ** The live subscription *)

(** The data callback handed to [onSnapshot]. *)
Definition onData (snapshot : list QueryDocumentSnapshot) : M unit :=
  setRealTimeStatus Connected ;;
  let projects := map project_of_doc snapshot in
  setTestProjects projects.

(** The error callback handed to [onSnapshot]. *)
Definition onError (error : Thrown) : M unit :=
  setRealTimeStatus Disconnected ;;
  console_error "Real-time error:" error.

(** [testRealTime], returning the value it leaves in [unsubscribe]. *)
Definition testRealTime : M (option Unsubscribe) :=
  try_catch
    (handle <- call onSnapshot OnSnapshot ;;
     ret (Some handle))
    (fun error =>
       setRealTimeStatus Disconnected ;;
       console_error "Real-time setup error:" error ;;
       ret None).

(** The effect body for the [status] of a render; its result is the content of
    the variable [unsubscribe] the returned cleanup closes over. *)
Definition effect (status_at_render : ConnectionStatus) : M (option Unsubscribe) :=
  match status_at_render with
  | Success => testRealTime
  | _ => ret None
  end.

(** The function the effect returns: [if (unsubscribe) unsubscribe()]. *)
Definition cleanup (unsubscribe : option Unsubscribe) : M unit :=
  match unsubscribe with
  | Some handle => call (callUnsubscribe handle) (Unsubscribed handle)
  | None => ret tt
  end.



(** [useEffect(..., [status])]: the effect that is currently mounted, with the
    dependency it ran for and the handle its cleanup holds. *)
Record Mounted : Type := mkMounted {
  deps : ConnectionStatus;
  unsubscribe : option Unsubscribe
}.

(** React after a render: on the first commit, or when [status] differs from
    the mounted effect's dependency, the old cleanup runs and then the effect. *)
Definition commit (mounted : option Mounted) : M (option Mounted) :=
  fun e =>
    let current := status (fst e) in
    match mounted with
    | Some m =>
        if ConnectionStatus_eqb (deps m) current then ret mounted e
        else (cleanup (unsubscribe m) ;;
              u <- effect current ;;
              ret (Some (mkMounted current u))) e
    | None => (u <- effect current ;; ret (Some (mkMounted current u))) e
    end.

(** React when the component is removed. *)
Definition unmount (mounted : option Mounted) : M (option Mounted) :=
  match mounted with
  | Some m => cleanup (unsubscribe m) ;; ret None
  | None => ret None
  end.

(** ** The view *)

(** The props the component passes to a [Button]. *)
Record ButtonProps : Type := mkButton {
  onClick : M unit;
  disabled : bool;
  children : string
}.

Record View : Type := mkView {
  statusBadge : string;
  realTimeBadge : string;
  messageLine : string;
  testButton : ButtonProps;
  addButton : ButtonProps;
  clearButton : ButtonProps;
  listHeading : option string
}.

Definition render (st : State) : View :=
  {| statusBadge :=
       match status st with
       | Idle => "Not Tested"
       | Testing => "Testing..."
       | Success => "Connected"
       | Error => "Error"
       end;
     realTimeBadge :=
       match realTimeStatus st with
       | RtIdle => "Real-time: Idle"
       | Connected => "Real-time: Active"
       | Disconnected => "Real-time: Error"
       end;
     messageLine :=
       match message st with
       | EmptyString => "Click 'Test Connection' to start"
       | m => m
       end;
     testButton :=
       {| onClick := testConnection;
          disabled := ConnectionStatus_eqb (status st) Testing;
          children := if ConnectionStatus_eqb (status st) Testing
                      then "Testing..." else "Test Connection" |};
     addButton :=
       {| onClick := addTestData;
          disabled := negb (ConnectionStatus_eqb (status st) Success) || isLoading st;
          children := if isLoading st then "Adding..." else "Add Test Data" |};
     clearButton :=
       {| onClick := clearTestData (testProjects st);
          disabled := negb (ConnectionStatus_eqb (status st) Success) || isLoading st
                      || Nat.eqb (length (testProjects st)) 0;
          children := if isLoading st then "Clearing..." else "Clear Test Data" |};
     listHeading :=
       if Nat.ltb 0 (length (testProjects st))
       then Some ("Projects in Database ("
                  ++ String_of_length (length (testProjects st)) ++ ")")%string
       else None |}.

(** Modelled from the spec: the [Button] component ([@/components/ui/button],
    not among the sources) hands [disabled] and [onClick] to a button element;
    a command is "only enabled in the UI sense" when its button is not
    disabled, and a click on a disabled button dispatches nothing. *)
Definition click (button : ButtonProps) : M unit :=
  if disabled button then ret tt else onClick button.

(** ** Reading a run *)

Definition state_after {A} (m : M A) (st : State) (w : W) : State :=
  fst (fst (fst (m (st, w)))).

Definition world_after {A} (m : M A) (st : State) (w : W) : W :=
  snd (fst (fst (m (st, w)))).

Definition trace_of {A} (m : M A) (st : State) (w : W) : list Event :=
  snd (fst (m (st, w))).

Definition result_of {A} (m : M A) (st : State) (w : W) : Thrown + A :=
  snd (m (st, w)).

(** The store's answer to deleting [idents] one after the other, stopping at
    the first rejection. *)
Fixpoint deleteDocs (idents : list string) (w : W) : W * (Thrown + unit) :=
  match idents with
  | [] => (w, inr tt)
  | ident :: rest =>
      match deleteDoc ident w with
      | (w1, inr _) => deleteDocs rest w1
      | (w1, inl x) => (w1, inl x)
      end
  end.

(** The identifiers [clearTestData] issues a delete for, in order. *)
Definition deletable (projects : list TestProject) : list string :=
  flat_map (fun p => match id p with
                     | Some ident => if truthy (Some ident) then [ident] else []
                     | None => []
                     end) projects.

(** The delete events of that sequence: one per call, the last one failed when
    the sequence was cut short. *)
Fixpoint deleteEvents (idents : list string) (w : W) : list Event :=
  match idents with
  | [] => []
  | ident :: rest =>
      match deleteDoc ident w with
      | (w1, inr u) => DeleteDoc ident (inr u) :: deleteEvents rest w1
      | (w1, inl x) => [DeleteDoc ident (inl x)]
      end
  end.


(** The life of the mounted component: a commit for each status the renders
    go through, then the unmount. *)
Fixpoint life (renders : list ConnectionStatus) (mounted : option Mounted)
  : M (option Mounted) :=
  match renders with
  | [] => unmount mounted
  | s :: rest =>
      m <- (fun e => commit mounted (with_status s (fst e), snd e)) ;;
      life rest m
  end.

(** The handle a mounted effect's cleanup holds. *)
Definition held (mounted : option Mounted) : list Unsubscribe :=
  match mounted with
  | Some m => match unsubscribe m with Some handle => [handle] | None => [] end
  | None => []
  end.

(** The handles [onSnapshot] returned, and the handles that were called. *)
Definition established (tr : list Event) : list Unsubscribe :=
  flat_map (fun ev => match ev with OnSnapshot (inr handle) => [handle] | _ => [] end) tr.

Definition released (tr : list Event) : list Unsubscribe :=
  flat_map (fun ev => match ev with Unsubscribed handle _ => [handle] | _ => [] end) tr.

(** The commits of a component that stays on screen: [life] without the final
    unmount. *)
Fixpoint commits (renders : list ConnectionStatus) (mounted : option Mounted)
  : M (option Mounted) :=
  match renders with
  | [] => ret mounted
  | s :: rest =>
      m <- (fun e => commit mounted (with_status s (fst e), snd e)) ;;
      commits rest m
  end.

(** How many of [renders] show a status that has just become success, coming
    from the status [previous] of the last commit, if there was one. *)
Fixpoint entries (previous : option ConnectionStatus)
                 (renders : list ConnectionStatus) : nat :=
  match renders with
  | [] => 0
  | s :: rest =>
      match s, previous with
      | Success, Some Success => 0
      | Success, _ => 1
      | _, _ => 0
      end + entries (Some s) rest
  end.

(** A call of [onSnapshot], whatever came of it. *)
Definition is_OnSnapshot (ev : Event) : bool :=
  match ev with OnSnapshot _ => true | _ => false end.

(** A write of the real-time status. *)
Definition is_SetRealTimeStatus (ev : Event) : bool :=
  match ev with SetRealTimeStatus _ => true | _ => false end.

End Component.

(** ** An in-memory collaborator

    A store that holds its documents newest first, numbers the documents and
    listeners it creates, and follows a script of faults: every fallible call
    consumes one entry, [Some error] makes that call fail and leaves the store
    as it was, [None] (or an exhausted script) lets it go through. *)

Module Mem.

Record World : Type := mkWorld {
  docs : list QueryDocumentSnapshot;
  script : list (option Thrown);
  clock : Z;
  nextDoc : nat;
  listeners : list Unsubscribe;
  nextListener : nat
}.

Definition scripted {A} (w : World) (go : World -> World * A)
  : World * (Thrown + A) :=
  let w' := mkWorld (docs w) (tl (script w)) (clock w) (nextDoc w)
                    (listeners w) (nextListener w) in
  match script w with
  | Some error :: _ => (w', inl error)
  | _ => let '(w2, a) := go w' in (w2, inr a)
  end.

Definition getDocs (w : World) : World * (Thrown + list QueryDocumentSnapshot) :=
  scripted w (fun w' => (w', docs w')).

Definition addDoc (data : TestProject) (w : World) : World * (Thrown + string) :=
  scripted w (fun w' =>
    let ident := ("doc" ++ String_of_length (nextDoc w'))%string in
    (mkWorld (mkDoc ident data :: docs w') (script w') (clock w')
             (S (nextDoc w')) (listeners w') (nextListener w'),
     ident)).

Definition deleteDoc (ident : string) (w : World) : World * (Thrown + unit) :=
  scripted w (fun w' =>
    (mkWorld (filter (fun d => negb (String.eqb (doc_id d) ident)) (docs w'))
             (script w') (clock w') (nextDoc w') (listeners w') (nextListener w'),
     tt)).

Definition onSnapshot (w : World) : World * (Thrown + Unsubscribe) :=
  scripted w (fun w' =>
    (mkWorld (docs w') (script w') (clock w') (nextDoc w')
             (nextListener w' :: listeners w') (S (nextListener w')),
     nextListener w')).

Definition callUnsubscribe (handle : Unsubscribe) (w : World)
  : World * (Thrown + unit) :=
  (mkWorld (docs w) (script w) (clock w) (nextDoc w)
           (filter (fun h => negb (Nat.eqb h handle)) (listeners w))
           (nextListener w),
   inr tt).

Definition Date_now (w : World) : World * Z :=
  (mkWorld (docs w) (script w) (clock w + 1) (nextDoc w) (listeners w)
           (nextListener w),
   clock w).

#[global] Instance environment : Environment World :=
  Build_Environment World getDocs addDoc deleteDoc onSnapshot callUnsubscribe
                    Date_now.

(** A store holding [ds] that will answer its calls as [faults] says. *)
Definition store (ds : list QueryDocumentSnapshot) (faults : list (option Thrown))
  : World :=
  mkWorld ds faults 1767225600000 0 [] 0.

(** Document data with the given [name] and, possibly, an ["id"] property. *)
Definition data (own_id : option string) (name : string) : TestProject :=
  mkTestProject own_id name "Site" "PM" "PIC" "Role" "2026-12-31" [] (Some 0%Z) (Some 0%Z).

End Mem.

(** ** Concrete stores and states the properties are run on *)

Module Scenario.

Definition denied : Thrown := ErrorObject "Missing or insufficient permissions.".

(** Three sample records, as the insert command leaves them in the store. *)
Definition samples : list QueryDocumentSnapshot :=
  [ mkDoc "a" (Mem.data None "Test Project 1767225600001");
    mkDoc "b" (Mem.data None "Test Project 1767225600002");
    mkDoc "c" (Mem.data None "Test Project 1767225600003") ].

(** A store without sample records. *)
Definition others : list QueryDocumentSnapshot :=
  [ mkDoc "x" (Mem.data None "Harbour bridge");
    mkDoc "y" (Mem.data None "Tower refit") ].

(** A sample record next to one whose data carries an empty ["id"]. *)
Definition shadowed : list QueryDocumentSnapshot :=
  [ mkDoc "a" (Mem.data None "Test Project 1767225600001");
    mkDoc "b" (Mem.data (Some "") "Test Project 1767225600002") ].

(** Three sample records, the first with an empty ["id"] in its data. *)
Definition unlabelled_first : list QueryDocumentSnapshot :=
  [ mkDoc "z" (Mem.data (Some "") "Test Project 1767225600001");
    mkDoc "a" (Mem.data None "Test Project 1767225600002");
    mkDoc "c" (Mem.data None "Test Project 1767225600003") ].

(** The state a successful probe of [ds] leaves behind. *)
Definition connected (ds : list QueryDocumentSnapshot) : State :=
  state_after testConnection initial (Mem.store ds []).

Definition probing : State :=
  mkState Testing "Testing Firebase connection..." [] false RtIdle.

Definition busy : State :=
  mkState Success "Adding test project..." (map project_of_doc samples) true Connected.

End Scenario.

(** * Properties *)

(** ** Strings *)

Lemma prefix_app (s rest : string) : String.prefix s (s ++ rest)%string = true.
Proof.
  induction s as [|c s IH]; simpl.
  - destruct rest; reflexivity.
  - destruct (ascii_dec c c) as [_|ne]; [exact IH | contradiction].
Qed.

Lemma includes_unfold (s search : string) :
  includes s search =
  if String.prefix search s then true
  else match s with
       | EmptyString => false
       | String _ rest => includes rest search
       end.
Proof. destruct s; reflexivity. Qed.

Lemma includes_infix (before s after : string) :
  includes (before ++ s ++ after)%string s = true.
Proof.
  induction before as [|c before IH]; rewrite includes_unfold.
  - cbn [String.append]. now rewrite prefix_app.
  - cbn [String.append].
    destruct (String.prefix s (String c (before ++ s ++ after))); [reflexivity | exact IH].
Qed.

Lemma includes_suffix (before s : string) : includes (before ++ s)%string s = true.
Proof.
  replace (before ++ s)%string with (before ++ s ++ "")%string.
  - apply includes_infix.
  - f_equal. induction s as [|c s IH]; simpl; [reflexivity | now rewrite IH].
Qed.

Example includes_sample_name :
  includes "Test Project 1767225600000" "Test Project" = true.
Proof. reflexivity. Qed.

Example includes_other_name : includes "Harbour bridge" "Test Project" = false.
Proof. reflexivity. Qed.

Example truthy_values :
  truthy None = false /\ truthy (Some "") = false /\ truthy (Some "a") = true.
Proof. repeat split. Qed.

Example String_of_length_samples :
  String_of_length 0 = "0" /\ String_of_length 12 = "12".
Proof. split; reflexivity. Qed.

Example project_of_doc_keeps_data_id :
  id (project_of_doc (mkDoc "b" (Mem.data (Some "") "n"))) = Some "" /\
  id (project_of_doc (mkDoc "b" (Mem.data None "n"))) = Some "b".
Proof. split; reflexivity. Qed.

(** A probe of an empty store: success, a message with "0", no records. *)
Example probe_of_empty_store :
  state_after testConnection initial (Mem.store [] [])
  = mkState Success "✅ Firebase connected! Found 0 projects in database." []
            false RtIdle.
Proof. reflexivity. Qed.

(** ** Traces *)

Lemma count_app (p : Event -> bool) (a b : list Event) :
  count p (a ++ b) = count p a + count p b.
Proof. unfold count. now rewrite filter_app, length_app. Qed.

Section Properties.

Context {W : Type} `{Environment W}.

(** Case analysis on a membership in an explicit trace. *)
Ltac pick H :=
  cbn [In app] in H;
  repeat match type of H with
         | _ \/ _ => destruct H as [H|H]; [try discriminate H |]
         | False => contradiction
         end.

Ltac unfold_ops :=
  unfold state_after, world_after, trace_of, result_of,
         setStatus, setMessage, setTestProjects, setIsLoading,
         setRealTimeStatus, console_error, call, now, set,
         try_finally, try_catch, bind, ret in *.

(** ** The Connection Prober *)

(** The whole run of [testConnection], by the outcome of the read. *)
Lemma testConnection_run (st : State) (w : W) :
  testConnection (st, w) =
  match getDocs w with
  | (w1, inr querySnapshot) =>
      let found := ("✅ Firebase connected! Found "
                    ++ String_of_length (length querySnapshot)
                    ++ " projects in database.")%string in
      ((mkState Success found (map project_of_doc querySnapshot)
                (isLoading st) (realTimeStatus st), w1),
       [SetStatus Testing; SetMessage "Testing Firebase connection...";
        GetDocs (inr querySnapshot); SetStatus Success; SetMessage found;
        SetTestProjects (map project_of_doc querySnapshot)],
       inr tt)
  | (w1, inl error) =>
      let failed := ("❌ Firebase connection failed: " ++ describe error)%string in
      ((mkState Error failed (testProjects st) (isLoading st) (realTimeStatus st), w1),
       [SetStatus Testing; SetMessage "Testing Firebase connection...";
        GetDocs (inl error); SetStatus Error; SetMessage failed;
        ConsoleError "Firebase connection error:" error],
       inr tt)
  end.
Proof.
  unfold testConnection. unfold_ops. simpl.
  destruct (getDocs w) as [w1 [error|querySnapshot]]; reflexivity.
Qed.


(** ** The mutation commands *)

(** The whole run of [addTestData], by the outcome of the insert. *)
Lemma addTestData_run (st : State) (w : W) :
  addTestData (st, w) =
  let w1 := fst (Date_now w) in
  let w2 := fst (Date_now w1) in
  let w3 := fst (Date_now w2) in
  let data := stamped (testProject (snd (Date_now w))) (snd (Date_now w1))
                      (snd (Date_now w2)) in
  match addDoc data w3 with
  | (w4, inr docRef) =>
      let added := ("✅ Test project added! ID: " ++ docRef)%string in
      let probe := testConnection
                     (mkState (status st) added (testProjects st) true
                              (realTimeStatus st), w4) in
      ((with_isLoading false (fst (fst (fst probe))), snd (fst (fst probe))),
       [SetIsLoading true; SetMessage "Adding test project...";
        AddDoc data (inr docRef); SetMessage added]
       ++ snd (fst probe) ++ [SetIsLoading false],
       inr tt)
  | (w4, inl error) =>
      let failed := ("❌ Failed to add test project: " ++ describe error)%string in
      ((mkState (status st) failed (testProjects st) false (realTimeStatus st), w4),
       [SetIsLoading true; SetMessage "Adding test project...";
        AddDoc data (inl error); SetMessage failed;
        ConsoleError "Add test data error:" error; SetIsLoading false],
       inr tt)
  end.
Proof.
  unfold addTestData. unfold_ops. simpl.
  destruct (Date_now w) as [w1 t0]; simpl.
  destruct (Date_now w1) as [w2 t1]; simpl.
  destruct (Date_now w2) as [w3 t2]; simpl.
  destruct (addDoc _ w3) as [w4 [error|docRef]]; simpl; [reflexivity |].
  unfold with_message, with_isLoading; simpl.
  rewrite testConnection_run.
  destruct (getDocs w4) as [w5 [error|querySnapshot]]; reflexivity.
Qed.

Lemma deleteProject_run (project : TestProject) (st : State) (w : W) :
  deleteProject project (st, w) =
  ((st, fst (deleteDocs (deletable [project]) w)),
   deleteEvents (deletable [project]) w,
   snd (deleteDocs (deletable [project]) w)).
Proof.
  unfold deleteProject, deletable. simpl.
  destruct (id project) as [[|c ident]|]; simpl; try reflexivity.
  unfold_ops. simpl.
  destruct (deleteDoc (String c ident) w) as [w1 [error|[]]]; reflexivity.
Qed.

Lemma deleteDocs_app (a b : list string) (w : W) :
  deleteDocs (a ++ b) w =
  match deleteDocs a w with
  | (w1, inr _) => deleteDocs b w1
  | (w1, inl x) => (w1, inl x)
  end.
Proof.
  revert w. induction a as [|ident a IH]; intro w; simpl; [reflexivity |].
  destruct (deleteDoc ident w) as [w1 [error|u]]; [reflexivity | apply IH].
Qed.

Lemma deleteEvents_app (a b : list string) (w : W) :
  deleteEvents (a ++ b) w =
  match deleteDocs a w with
  | (w1, inr _) => deleteEvents a w ++ deleteEvents b w1
  | (_, inl _) => deleteEvents a w
  end.
Proof.
  revert w. induction a as [|ident a IH]; intro w; simpl; [reflexivity |].
  destruct (deleteDoc ident w) as [w1 [error|u]]; [reflexivity |].
  rewrite IH. destruct (deleteDocs a w1) as [w2 [error|u2]]; reflexivity.
Qed.

Lemma deletable_app (a b : list TestProject) :
  deletable (a ++ b) = deletable a ++ deletable b.
Proof. unfold deletable. apply flat_map_app. Qed.

(** The loop of [clearTestData] issues exactly the deletes of [deleteDocs], in
    order, touches no React state, and throws what the failing delete threw. *)
Lemma forOf_deleteProject_run (projects : list TestProject) (st : State) (w : W) :
  forOf projects deleteProject (st, w) =
  ((st, fst (deleteDocs (deletable projects) w)),
   deleteEvents (deletable projects) w,
   snd (deleteDocs (deletable projects) w)).
Proof.
  revert w. induction projects as [|p projects IH]; intro w; [reflexivity |].
  change (p :: projects) with ([p] ++ projects).
  rewrite deletable_app, deleteDocs_app, deleteEvents_app.
  change ([p] ++ projects) with (p :: projects).
  simpl forOf. unfold bind at 1. rewrite deleteProject_run.
  destruct (deleteDocs (deletable [p]) w) as [w1 [error|u]]; simpl; [reflexivity |].
  rewrite IH. reflexivity.
Qed.

(** The whole run of [clearTestData], by the outcome of the deletions. *)
Lemma clearTestData_run (projects : list TestProject) (st : State) (w : W) :
  clearTestData projects (st, w) =
  let idents := deletable (projectsToDelete projects) in
  match deleteDocs idents w with
  | (w1, inr _) =>
      let cleared := ("✅ Cleared "
                      ++ String_of_length (length (projectsToDelete projects))
                      ++ " test projects")%string in
      let probe := testConnection
                     (mkState (status st) cleared (testProjects st) true
                              (realTimeStatus st), w1) in
      ((with_isLoading false (fst (fst (fst probe))), snd (fst (fst probe))),
       [SetIsLoading true; SetMessage "Clearing test data..."]
       ++ deleteEvents idents w ++ [SetMessage cleared]
       ++ snd (fst probe) ++ [SetIsLoading false],
       inr tt)
  | (w1, inl error) =>
      let failed := ("❌ Failed to clear test data: " ++ describe error)%string in
      ((mkState (status st) failed (testProjects st) false (realTimeStatus st), w1),
       [SetIsLoading true; SetMessage "Clearing test data..."]
       ++ deleteEvents idents w
       ++ [SetMessage failed; ConsoleError "Clear test data error:" error;
           SetIsLoading false],
       inr tt)
  end.
Proof.
  unfold clearTestData.
  unfold try_finally, try_catch, bind at 1 2 3.
  unfold setIsLoading at 1, setMessage at 1, set. cbn [fst snd].
  rewrite forOf_deleteProject_run.
  destruct (deleteDocs (deletable (projectsToDelete projects)) w)
    as [w1 [error|u]]; cbn [fst snd].
  - unfold_ops. simpl. rewrite <- app_assoc. reflexivity.
  - unfold bind, setMessage, setIsLoading, set. cbn [fst snd].
    unfold with_message, with_isLoading; simpl.
    rewrite testConnection_run.
    destruct (getDocs w1) as [w2 [error|querySnapshot]]; simpl;
      rewrite <- ?app_assoc; reflexivity.
Qed.

Lemma deleteEvents_count (p : Event -> bool) (idents : list string) (w : W) :
  (forall ident r, p (DeleteDoc ident r) = false) ->
  count p (deleteEvents idents w) = 0.
Proof.
  intro Hp. revert w. induction idents as [|ident idents IH]; intro w; [reflexivity |].
  simpl. destruct (deleteDoc ident w) as [w1 [error|u]]; unfold count in *; simpl;
    rewrite Hp; [reflexivity | apply IH].
Qed.

Lemma deleteEvents_completed (idents : list string) (w w1 : W) (u : unit) :
  deleteDocs idents w = (w1, inr u) ->
  deleteEvents idents w = map (fun ident => DeleteDoc ident (inr tt)) idents.
Proof.
  revert w. induction idents as [|ident idents IH]; intros w E; [reflexivity |].
  simpl in *. destruct (deleteDoc ident w) as [w2 [error|[]]]; [discriminate |].
  f_equal. now apply IH.
Qed.

Lemma deleteEvents_no_failure (idents : list string) (w w1 : W) (u : unit) :
  deleteDocs idents w = (w1, inr u) ->
  forall ident error, ~ In (DeleteDoc ident (inl error)) (deleteEvents idents w).
Proof.
  intros E ident error. rewrite (deleteEvents_completed _ _ _ _ E).
  rewrite in_map_iff. intros [i [D _]]. discriminate.
Qed.

Lemma count_completed (p : Event -> bool) (idents : list string) :
  (forall ident, p (DeleteDoc ident (inr tt)) = true) ->
  count p (map (fun ident => DeleteDoc ident (inr tt)) idents) = length idents.
Proof.
  intro Hp. unfold count.
  induction idents as [|ident idents IH]; simpl; [reflexivity |].
  rewrite Hp. simpl. now rewrite IH.
Qed.

Lemma count_completed_none (p : Event -> bool) (idents : list string) :
  (forall ident, p (DeleteDoc ident (inr tt)) = false) ->
  count p (map (fun ident => DeleteDoc ident (inr tt)) idents) = 0.
Proof.
  intro Hp. unfold count.
  induction idents as [|ident idents IH]; simpl; [reflexivity |].
  rewrite Hp. exact IH.
Qed.

(** The probe emits one read and nothing else outside the component. *)
Lemma testConnection_external (st : State) (w : W) :
  filter is_external (trace_of testConnection st w) = [GetDocs (snd (getDocs w))].
Proof.
  unfold trace_of. rewrite testConnection_run.
  destruct (getDocs w) as [w1 [error|querySnapshot]]; reflexivity.
Qed.

Lemma testConnection_count (p : Event -> bool) (st : State) (w : W) :
  (forall v, p (SetStatus v) = false) ->
  (forall v, p (SetMessage v) = false) ->
  (forall r, p (GetDocs r) = false) ->
  (forall v, p (SetTestProjects v) = false) ->
  (forall l e, p (ConsoleError l e) = false) ->
  count p (snd (fst (testConnection (st, w)))) = 0.
Proof.
  intros H1 H2 H3 H4 H5. rewrite testConnection_run.
  destruct (getDocs w) as [w1 [error|querySnapshot]]; unfold count; simpl;
    rewrite ?H1, ?H2, ?H3, ?H4, ?H5; reflexivity.
Qed.

(** When every record carries a non-empty identifier, a delete is issued for
    each of them. *)
Lemma deletable_identified (projects : list TestProject) :
  (forall q, In q projects -> truthy (id q) = true) ->
  length (deletable projects) = length projects.
Proof.
  induction projects as [|p projects IH]; intro Hall; [reflexivity |].
  change (p :: projects) with ([p] ++ projects).
  rewrite deletable_app, !length_app, IH
    by (intros q Hq; apply Hall; right; exact Hq).
  f_equal. pose proof (Hall p (or_introl eq_refl)) as Hp.
  unfold deletable. cbn [flat_map].
  destruct (id p) as [[|c i]|]; try discriminate Hp. reflexivity.
Qed.

(** C3, as the code has it.  When the deletion of a matching record fails
    after the deletions before it went through, [clearTestData] has
    performed exactly the deletions of the earlier matching records that
    carry an identifier (the ones without are passed over), so all k-1 of
    them when each carries one; it attempts none after the failing one,
    shows the failure's description in the message, leaves the connection
    status (and the local records) as they were, and runs no refresh
    probe. *)
Theorem clearTestData_partial_failure
    (projects pre post : list TestProject) (p : TestProject)
    (ident : string) (error : Thrown) (st : State) (w w1 w2 : W) :
  projectsToDelete projects = pre ++ p :: post ->
  id p = Some ident ->
  truthy (Some ident) = true ->
  deleteDocs (deletable pre) w = (w1, inr tt) ->
  deleteDoc ident w1 = (w2, inl error) ->
  let failed := ("❌ Failed to clear test data: " ++ describe error)%string in
  let tr := trace_of (clearTestData projects) st w in
  let st' := state_after (clearTestData projects) st w in
  tr = [SetIsLoading true; SetMessage "Clearing test data..."]
       ++ map (fun i => DeleteDoc i (inr tt)) (deletable pre)
       ++ [DeleteDoc ident (inl error); SetMessage failed;
           ConsoleError "Clear test data error:" error; SetIsLoading false] /\
  count is_completed_delete tr = length (deletable pre) /\
  count is_DeleteDoc tr = S (length (deletable pre)) /\
  count is_GetDocs tr = 0 /\
  count is_SetStatus tr = 0 /\
  world_after (clearTestData projects) st w = w2 /\
  message st' = failed /\
  includes (message st') (describe error) = true /\
  status st' = status st /\
  testProjects st' = testProjects st /\
  ((forall q, In q pre -> truthy (id q) = true) ->
   count is_completed_delete tr = length pre /\
   count is_DeleteDoc tr = S (length pre)).
Proof.
  intros Hsplit Hid Htruthy Hpre Hfail failed tr st'.
  assert (Hd : deletable (projectsToDelete projects)
               = deletable pre ++ ident :: deletable post).
  { rewrite Hsplit, deletable_app. f_equal.
    change (p :: post) with ([p] ++ post). rewrite deletable_app.
    unfold deletable at 1. cbn [flat_map]. rewrite Hid, Htruthy. reflexivity. }
  assert (Hrun : deleteDocs (deletable (projectsToDelete projects)) w = (w2, inl error)).
  { rewrite Hd, deleteDocs_app, Hpre. simpl. now rewrite Hfail. }
  assert (Hev : deleteEvents (deletable (projectsToDelete projects)) w
                = map (fun i => DeleteDoc i (inr tt)) (deletable pre)
                  ++ [DeleteDoc ident (inl error)]).
  { rewrite Hd, deleteEvents_app, Hpre.
    rewrite (deleteEvents_completed _ _ _ _ Hpre). simpl. now rewrite Hfail. }
  assert (Htr : tr = [SetIsLoading true; SetMessage "Clearing test data..."]
       ++ map (fun i => DeleteDoc i (inr tt)) (deletable pre)
       ++ [DeleteDoc ident (inl error); SetMessage failed;
           ConsoleError "Clear test data error:" error; SetIsLoading false]).
  { subst tr. unfold trace_of. rewrite clearTestData_run. cbv zeta.
    rewrite Hrun, Hev. cbn [fst snd]. rewrite <- app_assoc. reflexivity. }
  assert (Hdone : count is_completed_delete tr = length (deletable pre)).
  { rewrite Htr, !count_app, (count_completed is_completed_delete) by reflexivity.
    unfold count; simpl; lia. }
  assert (Hissued : count is_DeleteDoc tr = S (length (deletable pre))).
  { rewrite Htr, !count_app, (count_completed is_DeleteDoc) by reflexivity.
    unfold count; simpl; lia. }
  split; [exact Htr |]. split; [exact Hdone |]. split; [exact Hissued |].
  split.
  { rewrite Htr, !count_app, (count_completed_none is_GetDocs) by reflexivity.
    reflexivity. }
  split.
  { rewrite Htr, !count_app, (count_completed_none is_SetStatus) by reflexivity.
    reflexivity. }
  subst st'. unfold state_after, world_after. rewrite clearTestData_run.
  cbv zeta. rewrite Hrun. cbn [fst snd message status testProjects].
  split; [reflexivity |]. split; [reflexivity |].
  split; [apply (includes_suffix "❌ Failed to clear test data: ") |].
  split; [reflexivity |]. split; [reflexivity |].
  intro Hall. rewrite Hdone, Hissued, (deletable_identified pre Hall).
  split; reflexivity.
Qed.

(** C7. When no local record's name contains the synthetic prefix,
    [clearTestData] issues no delete, reports zero, and still runs the probe:
    its only call to the collaborator is the probe's single read. *)
Theorem clearTestData_no_matches (projects : list TestProject) (st : State) (w : W) :
  projectsToDelete projects = [] ->
  let tr := trace_of (clearTestData projects) st w in
  tr = [SetIsLoading true; SetMessage "Clearing test data...";
        SetMessage "✅ Cleared 0 test projects"]
       ++ trace_of testConnection
            (mkState (status st) "✅ Cleared 0 test projects" (testProjects st)
                     true (realTimeStatus st)) w
       ++ [SetIsLoading false] /\
  count is_DeleteDoc tr = 0 /\
  count is_GetDocs tr = 1 /\
  filter is_external tr = [GetDocs (snd (getDocs w))].
Proof.
  intros Hnone tr.
  assert (Htr : tr = [SetIsLoading true; SetMessage "Clearing test data...";
        SetMessage "✅ Cleared 0 test projects"]
       ++ trace_of testConnection
            (mkState (status st) "✅ Cleared 0 test projects" (testProjects st)
                     true (realTimeStatus st)) w
       ++ [SetIsLoading false]).
  { subst tr. unfold trace_of. rewrite clearTestData_run. rewrite Hnone. reflexivity. }
  split; [exact Htr |]. rewrite Htr.
  unfold count. rewrite !filter_app. unfold trace_of. rewrite testConnection_run.
  destruct (getDocs w) as [w1 [error|querySnapshot]]; repeat split.
Qed.

(** The insert handler has no guard of its own: whatever the status, a run
    submits one insert. *)
Lemma addTestData_always_submits (st : State) (w : W) :
  count is_AddDoc (trace_of addTestData st w) = 1.
Proof.
  unfold trace_of. rewrite addTestData_run. cbv zeta.
  destruct (addDoc _ _) as [w4 [error|docRef]]; [reflexivity |].
  cbn [fst snd]. rewrite !count_app, testConnection_count by reflexivity.
  reflexivity.
Qed.

(** C4. The failure branches of the two commands and the subscription's
    error callback never write the connection status; neither do the data
    callback, the subscription set-up and the teardown.  Only
    [testConnection] calls [setStatus]. *)
Theorem only_the_probe_writes_status (st : State) (w : W) :
  (forall data error,
     In (AddDoc data (inl error)) (trace_of addTestData st w) ->
     count is_SetStatus (trace_of addTestData st w) = 0 /\
     status (state_after addTestData st w) = status st) /\
  (forall projects ident error,
     In (DeleteDoc ident (inl error)) (trace_of (clearTestData projects) st w) ->
     count is_SetStatus (trace_of (clearTestData projects) st w) = 0 /\
     status (state_after (clearTestData projects) st w) = status st) /\
  (forall error,
     count is_SetStatus (trace_of (onError error) st w) = 0 /\
     status (state_after (onError error) st w) = status st) /\
  (forall snapshot,
     count is_SetStatus (trace_of (onData snapshot) st w) = 0 /\
     status (state_after (onData snapshot) st w) = status st) /\
  (forall s,
     count is_SetStatus (trace_of (effect s) st w) = 0 /\
     status (state_after (effect s) st w) = status st) /\
  (forall held_handle,
     count is_SetStatus (trace_of (cleanup held_handle) st w) = 0 /\
     status (state_after (cleanup held_handle) st w) = status st).
Proof.
  repeat split.
  - revert H0. unfold trace_of. rewrite addTestData_run. cbv zeta.
    destruct (addDoc _ _) as [w4 [e|docRef]]; [reflexivity |].
    cbn [fst snd]. rewrite testConnection_run.
    destruct (getDocs w4) as [w5 [e|querySnapshot]]; cbn [fst snd app];
      intro Hin; pick Hin.
  - revert H0. unfold trace_of, state_after. rewrite addTestData_run. cbv zeta.
    destruct (addDoc _ _) as [w4 [e|docRef]]; [reflexivity |].
    cbn [fst snd]. rewrite testConnection_run.
    destruct (getDocs w4) as [w5 [e|querySnapshot]]; cbn [fst snd app];
      intro Hin; pick Hin.
  - revert H0. unfold trace_of. rewrite clearTestData_run. cbv zeta.
    destruct (deleteDocs _ w) as [w1 [e|u]] eqn:E; cbn [fst snd].
    + intros _. rewrite !count_app, deleteEvents_count by reflexivity. reflexivity.
    + intro Hin. exfalso.
      apply in_app_or in Hin. destruct Hin as [Hin|Hin];
        [pick Hin |].
      apply in_app_or in Hin. destruct Hin as [Hin|Hin];
        [exact (deleteEvents_no_failure _ _ _ _ E _ _ Hin) |].
      revert Hin. rewrite testConnection_run.
      destruct (getDocs w1) as [w2 [e|querySnapshot]]; cbn [fst snd];
        intro Hin'; pick Hin'.
  - revert H0. unfold trace_of, state_after. rewrite clearTestData_run. cbv zeta.
    destruct (deleteDocs _ w) as [w1 [e|u]] eqn:E; cbn [fst snd].
    + reflexivity.
    + intro Hin. exfalso.
      apply in_app_or in Hin. destruct Hin as [Hin|Hin];
        [pick Hin |].
      apply in_app_or in Hin. destruct Hin as [Hin|Hin];
        [exact (deleteEvents_no_failure _ _ _ _ E _ _ Hin) |].
      revert Hin. rewrite testConnection_run.
      destruct (getDocs w1) as [w2 [e|querySnapshot]]; cbn [fst snd];
        intro Hin'; pick Hin'.
  - unfold effect, testRealTime. destruct s; try reflexivity.
    unfold_ops. simpl. destruct (onSnapshot w) as [w1 [e|handle]]; reflexivity.
  - unfold effect, testRealTime. destruct s; try reflexivity.
    unfold_ops. simpl. destruct (onSnapshot w) as [w1 [e|handle]]; reflexivity.
  - destruct held_handle as [handle|]; [| reflexivity].
    unfold cleanup. unfold_ops. simpl.
    destruct (callUnsubscribe handle w) as [w1 r]; reflexivity.
  - destruct held_handle as [handle|]; [| reflexivity].
    unfold cleanup. unfold_ops. simpl.
    destruct (callUnsubscribe handle w) as [w1 r]; reflexivity.
Qed.

(** C9. [addTestData] and [clearTestData] set the busy flag as their first
    step and clear it as their last, whether the operation succeeds or fails,
    and write it nowhere in between; neither ever throws.  In a render where
    the flag is set, both command buttons are disabled. *)
Theorem busy_flag_brackets_commands (st : State) (w : W) (projects : list TestProject) :
  (exists mid,
     trace_of addTestData st w = SetIsLoading true :: mid ++ [SetIsLoading false] /\
     count is_SetIsLoading mid = 0) /\
  isLoading (state_after addTestData st w) = false /\
  result_of addTestData st w = inr tt /\
  (exists mid,
     trace_of (clearTestData projects) st w
       = SetIsLoading true :: mid ++ [SetIsLoading false] /\
     count is_SetIsLoading mid = 0) /\
  isLoading (state_after (clearTestData projects) st w) = false /\
  result_of (clearTestData projects) st w = inr tt /\
  (isLoading st = true ->
   disabled (addButton (render st)) = true /\
   disabled (clearButton (render st)) = true).
Proof.
  unfold trace_of, state_after, result_of.
  rewrite addTestData_run, clearTestData_run. cbv zeta.
  split; [| split; [| split; [| split; [| split; [| split]]]]].
  - destruct (addDoc _ _) as [w4 [e|docRef]]; cbn [fst snd].
    + match goal with
      | |- context [AddDoc ?data (inl e)] =>
          exists (SetMessage "Adding test project..."
                  :: AddDoc data (inl e)
                  :: SetMessage ("❌ Failed to add test project: " ++ describe e)%string
                  :: ConsoleError "Add test data error:" e :: nil)
      end.
      split; reflexivity.
    + match goal with
      | |- context [AddDoc ?data (inr docRef)] =>
          match goal with
          | |- context [testConnection ?e] =>
              exists ([SetMessage "Adding test project..."; AddDoc data (inr docRef);
                       SetMessage ("✅ Test project added! ID: " ++ docRef)%string]
                      ++ snd (fst (testConnection e)))
          end
      end.
      split.
      * cbn [app]. reflexivity.
      * rewrite count_app, testConnection_count by reflexivity. reflexivity.
  - destruct (addDoc _ _) as [w4 [e|docRef]]; reflexivity.
  - destruct (addDoc _ _) as [w4 [e|docRef]]; reflexivity.
  - destruct (deleteDocs _ w) as [w1 [e|u]]; cbn [fst snd].
    + exists ([SetMessage "Clearing test data..."]
              ++ deleteEvents (deletable (projectsToDelete projects)) w
              ++ [SetMessage ("❌ Failed to clear test data: " ++ describe e)%string;
                  ConsoleError "Clear test data error:" e]).
      split.
      * cbn [app]. rewrite <- app_assoc. reflexivity.
      * rewrite !count_app, deleteEvents_count by reflexivity. reflexivity.
    + match goal with
      | |- context [testConnection ?e] =>
          exists ([SetMessage "Clearing test data..."]
                  ++ deleteEvents (deletable (projectsToDelete projects)) w
                  ++ [SetMessage
                        ("✅ Cleared "
                         ++ String_of_length (length (projectsToDelete projects))
                         ++ " test projects")%string]
                  ++ snd (fst (testConnection e)))
      end.
      split.
      * cbn [app]. rewrite <- !app_assoc. reflexivity.
      * rewrite !count_app, deleteEvents_count, testConnection_count by reflexivity.
        reflexivity.
  - destruct (deleteDocs _ w) as [w1 [e|u]]; reflexivity.
  - destruct (deleteDocs _ w) as [w1 [e|u]]; reflexivity.
  - intro Hbusy. cbn [render addButton clearButton disabled].
    rewrite Hbusy, !orb_true_r. split; reflexivity.
Qed.

(** C10. After a run of [addTestData] in which both the insert and the
    refresh read succeed, the message on display is the probe's, with the
    record count; the message carrying the new identifier was set earlier in
    the same run and overwritten before the run ended. *)
Theorem insert_message_is_overwritten
    (st : State) (w : W) (data : TestProject) (docRef : string)
    (querySnapshot : list QueryDocumentSnapshot) :
  In (AddDoc data (inr docRef)) (trace_of addTestData st w) ->
  In (GetDocs (inr querySnapshot)) (trace_of addTestData st w) ->
  let added := ("✅ Test project added! ID: " ++ docRef)%string in
  let found := ("✅ Firebase connected! Found "
                ++ String_of_length (length querySnapshot)
                ++ " projects in database.")%string in
  trace_of addTestData st w =
    [SetIsLoading true; SetMessage "Adding test project...";
     AddDoc data (inr docRef); SetMessage added;
     SetStatus Testing; SetMessage "Testing Firebase connection...";
     GetDocs (inr querySnapshot); SetStatus Success; SetMessage found;
     SetTestProjects (map project_of_doc querySnapshot); SetIsLoading false] /\
  message (state_after addTestData st w) = found /\
  message (state_after addTestData st w) <> added /\
  includes (message (state_after addTestData st w))
           (String_of_length (length querySnapshot)) = true.
Proof.
  unfold trace_of, state_after. rewrite addTestData_run. cbv zeta.
  destruct (addDoc _ _) as [w4 [e|ref]]; cbn [fst snd].
  - intros Hadd _. exfalso. pick Hadd.
  - rewrite testConnection_run.
    destruct (getDocs w4) as [w5 [e|docs]]; cbn [fst snd app].
    + intros _ Hread. exfalso. pick Hread.
    + intros Hadd Hread. pick Hadd. pick Hread.
      injection Hadd as <- <-. injection Hread as <-.
      cbn [with_isLoading message].
      split; [reflexivity |]. split; [reflexivity |]. split.
      * cbn [String.append]. discriminate.
      * apply (includes_infix "✅ Firebase connected! Found " _
                              " projects in database.").
Qed.

(** C2. In a render where the connection status is not success the insert
    button is disabled, so the insert command dispatches nothing: no call to
    the collaborator, no setter call, the state and the world as they were. *)
Theorem insert_disabled_unless_connected (st : State) (w : W) :
  status st <> Success ->
  disabled (addButton (render st)) = true /\
  click (addButton (render st)) (st, w) = ((st, w), [], inr tt).
Proof.
  intro Hstatus. unfold click.
  assert (D : disabled (addButton (render st)) = true).
  { simpl. destruct (status st); try reflexivity. contradiction. }
  rewrite D. split; reflexivity.
Qed.


(** ** Completion of the delete command *)

Lemma filter_completed (p : Event -> bool) (idents : list string) (b : bool) :
  (forall ident, p (DeleteDoc ident (inr tt)) = b) ->
  filter p (map (fun ident => DeleteDoc ident (inr tt)) idents)
  = if b then map (fun ident => DeleteDoc ident (inr tt)) idents else [].
Proof.
  intro Hp. induction idents as [|ident idents IH]; simpl.
  - destruct b; reflexivity.
  - rewrite Hp, IH. destruct b; reflexivity.
Qed.

(** A delete is issued only for a matching record that carries a non-empty
    identifier; the others are passed over. *)
Lemma deletable_In (projects : list TestProject) (ident : string) :
  In ident (deletable projects) <->
  exists p, In p projects /\ id p = Some ident /\ truthy (Some ident) = true.
Proof.
  unfold deletable. rewrite in_flat_map. split.
  - intros [p [Hp Hin]]. exists p. split; [exact Hp |].
    destruct (id p) as [i|]; [| contradiction].
    destruct (truthy (Some i)) eqn:T; [| contradiction].
    destruct Hin as [<-|[]]. split; [reflexivity | exact T].
  - intros [p [Hp [Hid T]]]. exists p. split; [exact Hp |].
    rewrite Hid, T. left. reflexivity.
Qed.

Lemma deletable_length (projects : list TestProject) :
  length (deletable projects) <= length projects.
Proof.
  induction projects as [|p projects IH]; [apply le_n |].
  change (p :: projects) with ([p] ++ projects). rewrite deletable_app, !length_app.
  apply Nat.add_le_mono; [| exact IH].
  unfold deletable. simpl. destruct (id p) as [[|c i]|]; simpl; lia.
Qed.

(** When every deletion goes through, the deletes issued are those of the
    matching records that carry an identifier, while the completion message
    carries the number of matching records. *)
Lemma clearTestData_completion (projects : list TestProject) (st : State) (w w1 : W) :
  deleteDocs (deletable (projectsToDelete projects)) w = (w1, inr tt) ->
  filter is_DeleteDoc (trace_of (clearTestData projects) st w)
    = map (fun ident => DeleteDoc ident (inr tt)) (deletable (projectsToDelete projects)) /\
  nth_error (filter is_SetMessage (trace_of (clearTestData projects) st w)) 1
    = Some (SetMessage ("✅ Cleared "
                        ++ String_of_length (length (projectsToDelete projects))
                        ++ " test projects")%string).
Proof.
  intro Hrun. unfold trace_of. rewrite clearTestData_run. cbv zeta.
  rewrite Hrun. cbn [fst snd].
  rewrite (deleteEvents_completed _ _ _ _ Hrun).
  rewrite !filter_app.
  rewrite (filter_completed is_DeleteDoc _ true), (filter_completed is_SetMessage _ false)
    by reflexivity.
  rewrite testConnection_run.
  destruct (getDocs w1) as [w2 [error|querySnapshot]]; cbn [fst snd]; split;
    try reflexivity; simpl; now rewrite app_nil_r.
Qed.

(** ** Subscription teardown *)

Lemma released_app (a b : list Event) : released (a ++ b) = released a ++ released b.
Proof. apply flat_map_app. Qed.

Lemma established_app (a b : list Event) :
  established (a ++ b) = established a ++ established b.
Proof. apply flat_map_app. Qed.

(** A commit keeps the books: the handles called so far, followed by the one
    now held, are the handle held before followed by the ones established. *)
Lemma commit_balance (mounted : option Mounted) (e : State * W) :
  released (snd (fst (commit mounted e)))
  ++ match snd (commit mounted e) with inr m => held m | inl _ => [] end
  = held mounted ++ established (snd (fst (commit mounted e))).
Proof.
  destruct e as [st w]. unfold commit, cleanup, effect, testRealTime.
  destruct mounted as [[d [handle|]]|]; cbn [deps unsubscribe fst snd held];
    try destruct (ConnectionStatus_eqb d (status st));
    try reflexivity; unfold_ops; cbn [fst snd];
    try destruct (callUnsubscribe handle w) as [w1 [x|[]]]; cbn [fst snd];
    try reflexivity;
    destruct (status st); try reflexivity; cbn [fst snd];
    match goal with
    | |- context [onSnapshot ?w'] => destruct (onSnapshot w') as [w2 [x|h2]]
    end; reflexivity.
Qed.

Lemma unmount_balance (mounted : option Mounted) (e : State * W) :
  released (snd (fst (unmount mounted e)))
  = held mounted ++ established (snd (fst (unmount mounted e))).
Proof.
  destruct e as [st w]. unfold unmount, cleanup.
  destruct mounted as [[d [handle|]]|]; cbn [unsubscribe held]; try reflexivity.
  unfold_ops. cbn [fst snd].
  destruct (callUnsubscribe handle w) as [w1 [x|[]]]; reflexivity.
Qed.

(** Over a whole life, whatever was mounted at its start. *)
Lemma life_balance (renders : list ConnectionStatus) :
  forall (mounted : option Mounted) (e : State * W),
    released (snd (fst (life renders mounted e)))
    = held mounted ++ established (snd (fst (life renders mounted e))).
Proof.
  induction renders as [|s renders IH]; intros mounted e.
  - apply unmount_balance.
  - cbn [life]. unfold bind.
    pose proof (commit_balance mounted (with_status s (fst e), snd e)) as Hc.
    destruct (commit mounted (with_status s (fst e), snd e)) as [[e1 t1] [x|m]];
      cbn [fst snd] in *.
    + now rewrite app_nil_r in Hc.
    + specialize (IH m e1).
      destruct (life renders m e1) as [[e2 t2] r2]; cbn [fst snd] in *.
      rewrite released_app, established_app, IH, !app_assoc, Hc. reflexivity.
Qed.

(** C6, as the code has it.  A cleanup that holds no handle (the effect ran
    for a status other than success, or [onSnapshot] threw) makes no call and
    raises nothing.  A cleanup that holds a handle calls it once per
    invocation and raises exactly what that call raises; it keeps no record of
    having run, so invoking it twice calls the handle twice.  Over the life of
    the component, where React runs each effect's cleanup once, the handles
    called are exactly the handles established, each once and in order. *)
Theorem teardown_calls_handle_per_invocation (st : State) (w : W) :
  cleanup None (st, w) = ((st, w), [], inr tt) /\
  (forall s, s <> Success -> effect s (st, w) = ((st, w), [], inr None)) /\
  (forall w1 error,
     onSnapshot w = (w1, inl error) ->
     result_of (effect Success) st w = inr None /\
     established (trace_of (effect Success) st w) = []) /\
  (forall handle,
     trace_of (cleanup (Some handle)) st w
       = [Unsubscribed handle (snd (callUnsubscribe handle w))] /\
     result_of (cleanup (Some handle)) st w = snd (callUnsubscribe handle w) /\
     state_after (cleanup (Some handle)) st w = st) /\
  (forall handle,
     snd (callUnsubscribe handle w) = inr tt ->
     released (trace_of (bind (cleanup (Some handle))
                              (fun _ => cleanup (Some handle))) st w)
       = [handle; handle]) /\
  (forall renders,
     released (trace_of (life renders None) st w)
       = established (trace_of (life renders None) st w)).
Proof.
  split; [reflexivity |].
  split; [intros s Hs; destruct s; try reflexivity; contradiction |].
  split.
  { intros w1 error E. unfold effect, testRealTime. unfold_ops. cbn [fst snd].
    rewrite E. split; reflexivity. }
  split.
  { intro handle. unfold cleanup. unfold_ops. cbn [fst snd].
    destruct (callUnsubscribe handle w) as [w1 r]. repeat split. }
  split.
  { intros handle E. unfold cleanup. unfold_ops. cbn [fst snd].
    destruct (callUnsubscribe handle w) as [w1 r]. cbn [snd] in E. subst r.
    cbn [fst snd]. destruct (callUnsubscribe handle w1) as [w2 r]. reflexivity. }
  intro renders. unfold trace_of. apply (life_balance renders None (st, w)).
Qed.

End Properties.

(** * The properties on concrete stores *)

(** The second of three deletions fails: one deletion completed, no probe. *)
Lemma clearTestData_partial_failure_witness :
  let st := Scenario.connected Scenario.samples in
  let w := Mem.store Scenario.samples [None; Some Scenario.denied] in
  count is_completed_delete (trace_of (clearTestData (testProjects st)) st w) = 1 /\
  count is_DeleteDoc (trace_of (clearTestData (testProjects st)) st w) = 2 /\
  count is_GetDocs (trace_of (clearTestData (testProjects st)) st w) = 0 /\
  map doc_id (Mem.docs (world_after (clearTestData (testProjects st)) st w))
    = ["b"; "c"].
Proof.
  intros st w.
  pose proof (clearTestData_partial_failure
                (testProjects st)
                [project_of_doc (mkDoc "a" (Mem.data None "Test Project 1767225600001"))]
                [project_of_doc (mkDoc "c" (Mem.data None "Test Project 1767225600003"))]
                (project_of_doc (mkDoc "b" (Mem.data None "Test Project 1767225600002")))
                "b" Scenario.denied st w
                (fst (Mem.deleteDoc "a" w))
                (fst (Mem.deleteDoc "b" (fst (Mem.deleteDoc "a" w))))
                eq_refl eq_refl eq_refl eq_refl eq_refl) as P.
  cbv zeta in P.
  destruct P as (_ & _ & _ & P3 & _ & P5 & _ & _ & _ & _ & Pk).
  assert (Hall : forall q,
             In q [project_of_doc (mkDoc "a" (Mem.data None "Test Project 1767225600001"))] ->
             truthy (id q) = true)
    by (intros q [<-|[]]; reflexivity).
  destruct (Pk Hall) as [K1 K2].
  split; [exact K1 |]. split; [exact K2 |]. split; [exact P3 |].
  rewrite P5. reflexivity.
Defined.

(** C3, as stated, fails.  Three matching records are loaded, the first with
    no usable identifier, and the deletion of the second is rejected: no
    deletion was performed before the failure, not one. *)
Lemma second_match_fails_after_no_deletion :
  let st := Scenario.connected Scenario.unlabelled_first in
  let w := Mem.store Scenario.unlabelled_first [Some Scenario.denied] in
  let tr := trace_of (clearTestData (testProjects st)) st w in
  map id (projectsToDelete (testProjects st)) = [Some ""; Some "a"; Some "c"] /\
  filter is_DeleteDoc tr = [DeleteDoc "a" (inl Scenario.denied)] /\
  count is_completed_delete tr = 0 /\
  count is_completed_delete tr <> 2 - 1.
Proof.
  cbv zeta. repeat split. vm_compute. discriminate.
Qed.

Lemma clearTestData_no_matches_witness :
  let st := Scenario.connected Scenario.others in
  let w := Mem.store Scenario.others [] in
  count is_DeleteDoc (trace_of (clearTestData (testProjects st)) st w) = 0 /\
  count is_GetDocs (trace_of (clearTestData (testProjects st)) st w) = 1.
Proof.
  intros st w.
  pose proof (clearTestData_no_matches (testProjects st) st w eq_refl) as P.
  cbv zeta in P. destruct P as (_ & P1 & P2 & _).
  split; [exact P1 | exact P2].
Defined.

Lemma only_the_probe_writes_status_witness :
  let st := Scenario.connected Scenario.samples in
  status (state_after addTestData st (Mem.store Scenario.samples [Some Scenario.denied]))
    = Success /\
  status (state_after (clearTestData (testProjects st)) st
            (Mem.store Scenario.samples [None; Some Scenario.denied]))
    = Success.
Proof.
  intro st. split.
  - apply (proj1 (only_the_probe_writes_status
                    st (Mem.store Scenario.samples [Some Scenario.denied]))
             (stamped (testProject 1767225600000) 1767225600001 1767225600002)
             Scenario.denied).
    vm_compute. right. right. left. reflexivity.
  - apply (proj1 (proj2 (only_the_probe_writes_status
                           st (Mem.store Scenario.samples [None; Some Scenario.denied])))
             (testProjects st) "b" Scenario.denied).
    vm_compute. right. right. right. left. reflexivity.
Defined.

Lemma busy_flag_brackets_commands_witness :
  disabled (addButton (W:=Mem.World) (render Scenario.busy)) = true /\
  disabled (clearButton (W:=Mem.World) (render Scenario.busy)) = true.
Proof.
  apply (proj2 (proj2 (proj2 (proj2 (proj2 (proj2
           (busy_flag_brackets_commands Scenario.busy (Mem.store Scenario.samples [])
                                        (testProjects Scenario.busy)))))))).
  reflexivity.
Defined.

Lemma insert_message_is_overwritten_witness :
  message (state_after addTestData (Scenario.connected []) (Mem.store [] []))
  = "✅ Firebase connected! Found 1 projects in database.".
Proof.
  apply (insert_message_is_overwritten
           (Scenario.connected []) (Mem.store [] [])
           (stamped (testProject 1767225600000) 1767225600001 1767225600002)
           "doc0"
           [mkDoc "doc0" (stamped (testProject 1767225600000) 1767225600001
                                  1767225600002)]).
  - vm_compute. right. right. left. reflexivity.
  - vm_compute. do 6 right. left. reflexivity.
Defined.

Lemma insert_disabled_unless_connected_witness :
  click (addButton (render Scenario.probing)) (Scenario.probing, Mem.store [] [])
  = ((Scenario.probing, Mem.store [] []), [], inr tt).
Proof.
  apply (insert_disabled_unless_connected Scenario.probing (Mem.store [] [])).
  discriminate.
Defined.


Lemma teardown_calls_handle_per_invocation_witness :
  effect Idle (initial, Mem.store [] []) = ((initial, Mem.store [] []), [], inr None) /\
  released (trace_of (bind (cleanup (Some 0)) (fun _ => cleanup (Some 0)))
                     initial (Mem.store [] []))
  = [0; 0].
Proof.
  pose proof (teardown_calls_handle_per_invocation initial (Mem.store [] [])) as P.
  destruct P as (_ & P1 & _ & _ & P4 & _).
  split.
  - apply P1. discriminate.
  - apply P4. reflexivity.
Defined.

(** C6, as stated, fails.  One subscription is established and its cleanup is
    invoked twice: the handle is called twice, not once. *)
Lemma teardown_twice_calls_handle_twice :
  let run := bind (effect Success)
                  (fun held_handle =>
                     bind (cleanup held_handle) (fun _ => cleanup held_handle)) in
  let tr := trace_of run initial (Mem.store [] []) in
  result_of run initial (Mem.store [] []) = inr tt /\
  count is_established tr = 1 /\
  established tr = [0] /\
  released tr = [0; 0] /\
  count is_Unsubscribed tr <> 1.
Proof.
  cbv zeta. repeat split. vm_compute. discriminate.
Qed.

(** C8 on a store where one matching record has no usable identifier: the
    probe loads both records, [clearTestData] deletes one and skips the other,
    and the completion message it sets says two were cleared. *)
Theorem cleared_count_includes_skipped_records :
  let st := Scenario.connected Scenario.shadowed in
  let w := Mem.store Scenario.shadowed [] in
  let tr := trace_of (clearTestData (testProjects st)) st w in
  map id (testProjects st) = [Some "a"; Some ""] /\
  filter is_DeleteDoc tr = [DeleteDoc "a" (inr tt)] /\
  count is_completed_delete tr = 1 /\
  nth_error (filter is_SetMessage tr) 1 = Some (SetMessage "✅ Cleared 2 test projects") /\
  includes "✅ Cleared 2 test projects"
           (String_of_length (count is_completed_delete tr)) = false /\
  map doc_id (Mem.docs (world_after (clearTestData (testProjects st)) st w)) = ["b"].
Proof.
  cbv zeta. repeat split.
Qed.

(** * Further properties of the handlers *)

Section Further.

Context {W : Type} `{Environment W}.

Ltac cases_of H :=
  cbn [In app] in H;
  repeat match type of H with
         | _ \/ _ => destruct H as [H|H]; [try discriminate H |]
         | False => contradiction
         end.

(** ** The probe *)

(** X1. A probe never leaves the status at testing or idle: it ends in
    success or error, so the test button of the next render is enabled again.
    It makes one call to the collaborator, the read, whether that succeeds or
    not, and leaves the busy flag and the real-time status alone. *)
Theorem testConnection_settles (st : State) (w : W) :
  let st' := state_after testConnection st w in
  (status st' = Success \/ status st' = Error) /\
  disabled (testButton (W:=W) (render st')) = false /\
  filter is_external (trace_of testConnection st w) = [GetDocs (snd (getDocs w))] /\
  world_after testConnection st w = fst (getDocs w) /\
  isLoading st' = isLoading st /\
  realTimeStatus st' = realTimeStatus st.
Proof.
  unfold state_after, trace_of, world_after. rewrite testConnection_run.
  destruct (getDocs w) as [w1 [error|querySnapshot]]; cbn [fst snd];
    repeat split; auto.
Qed.


(** X3. The probe and the subscription write the same records, and the last
    writer wins: a data tick after a probe leaves the tick's records, a
    successful probe after a tick leaves the probe's, and a failed probe
    after a tick leaves the tick's. *)
Theorem last_write_wins (st : State) (w : W) (snapshot : list QueryDocumentSnapshot) :
  testProjects (state_after (bind testConnection (fun _ => onData snapshot)) st w)
    = map project_of_doc snapshot /\
  testProjects (state_after (bind (onData snapshot) (fun _ => testConnection)) st w)
    = match snd (getDocs w) with
      | inr querySnapshot => map project_of_doc querySnapshot
      | inl _ => map project_of_doc snapshot
      end.
Proof.
  unfold state_after, bind, onData.
  unfold setRealTimeStatus at 2, setTestProjects at 2, set. unfold bind.
  cbn [fst snd]. rewrite !testConnection_run.
  destruct (getDocs w) as [w1 [error|docs]]; split; reflexivity.
Qed.

(** ** The insert command *)

(** X4. When the insert fails, [addTestData] stops there: it shows the
    failure's description, runs no refresh read, and leaves status and
    records as they were, with the busy flag cleared. *)
Theorem addTestData_insert_failure
    (st : State) (w : W) (data : TestProject) (error : Thrown) :
  In (AddDoc data (inl error)) (trace_of addTestData st w) ->
  let failed := ("❌ Failed to add test project: " ++ describe error)%string in
  trace_of addTestData st w =
    [SetIsLoading true; SetMessage "Adding test project...";
     AddDoc data (inl error); SetMessage failed;
     ConsoleError "Add test data error:" error; SetIsLoading false] /\
  state_after addTestData st w
    = mkState (status st) failed (testProjects st) false (realTimeStatus st) /\
  includes (message (state_after addTestData st w)) (describe error) = true.
Proof.
  unfold trace_of, state_after. rewrite addTestData_run. cbv zeta.
  destruct (addDoc _ _) as [w4 [e|ref]]; cbn [fst snd].
  - intro Hin. cases_of Hin. injection Hin as <- <-.
    split; [reflexivity |]. split; [reflexivity |].
    apply (includes_suffix "❌ Failed to add test project: ").
  - rewrite testConnection_run.
    destruct (getDocs w4) as [w5 [e|docs]]; cbn [fst snd app];
      intro Hin; cases_of Hin.
Qed.


(** X6. Whatever [addTestData] submits is a sample record: it carries no
    identifier of its own, its name contains the phrase the delete command
    filters on, it has the two fixed tasks and both timestamps.  Read back
    under any document identifier it is selected by the delete command's
    filter, and deleted under that identifier when the identifier is not
    empty. *)
Theorem inserted_record_is_a_sample
    (st : State) (w : W) (data : TestProject) (outcome : Thrown + string) :
  In (AddDoc data outcome) (trace_of addTestData st w) ->
  id data = None /\
  includes (name data) "Test Project" = true /\
  length (notes data) = 2 /\
  createdAt data <> None /\
  updatedAt data <> None /\
  (forall ident,
     projectsToDelete [project_of_doc (mkDoc ident data)]
       = [project_of_doc (mkDoc ident data)] /\
     (ident <> ""%string ->
      deletable (projectsToDelete [project_of_doc (mkDoc ident data)]) = [ident])).
Proof.
  intro Hin.
  assert (Hdata : exists t0 t1 t2, data = stamped (testProject t0) t1 t2).
  { revert Hin. unfold trace_of. rewrite addTestData_run. cbv zeta.
    destruct (addDoc _ _) as [w4 [e|ref]]; cbn [fst snd].
    - intro Hin. cases_of Hin. injection Hin as <- _. eauto.
    - rewrite testConnection_run.
      destruct (getDocs w4) as [w5 [e|docs]]; cbn [fst snd app];
        intro Hin; cases_of Hin; injection Hin as <- _; eauto. }
  destruct Hdata as (t0 & t1 & t2 & ->).
  assert (Hname : includes (name (stamped (testProject t0) t1 t2)) "Test Project" = true).
  { cbn [name stamped testProject].
    apply (includes_infix "" "Test Project" (" " ++ String_of_number t0)). }
  split; [reflexivity |]. split; [exact Hname |]. split; [reflexivity |].
  split; [discriminate |]. split; [discriminate |].
  intro ident.
  assert (Hsel : projectsToDelete [project_of_doc (mkDoc ident (stamped (testProject t0) t1 t2))]
                 = [project_of_doc (mkDoc ident (stamped (testProject t0) t1 t2))]).
  { unfold projectsToDelete. cbn [filter].
    change (name (project_of_doc (mkDoc ident (stamped (testProject t0) t1 t2))))
      with (name (stamped (testProject t0) t1 t2)).
    rewrite Hname. reflexivity. }
  split; [exact Hsel |].
  intro Hne. rewrite Hsel. unfold deletable. cbn [flat_map].
  change (id (project_of_doc (mkDoc ident (stamped (testProject t0) t1 t2))))
    with (Some ident).
  destruct ident as [|c ident]; [contradiction | reflexivity].
Qed.

(** X7. [addTestData] never deletes.  Its calls to the collaborator are one
    insert, followed by one read exactly when the insert went through. *)
Theorem addTestData_footprint (st : State) (w : W) :
  count is_DeleteDoc (trace_of addTestData st w) = 0 /\
  exists data outcome rest,
    filter is_external (trace_of addTestData st w) = AddDoc data outcome :: rest /\
    match outcome with
    | inr _ => exists read, rest = [GetDocs read]
    | inl _ => rest = []
    end.
Proof.
  unfold trace_of. rewrite addTestData_run. cbv zeta.
  destruct (addDoc _ _) as [w4 [e|ref]]; cbn [fst snd].
  - split; [reflexivity |]. do 3 eexists. split; [reflexivity | reflexivity].
  - rewrite testConnection_run.
    destruct (getDocs w4) as [w5 [e|docs]]; cbn [fst snd];
      (split; [reflexivity |]); do 3 eexists;
      (split; [reflexivity | eexists; reflexivity]).
Qed.

(** ** The delete command *)

Lemma deleteEvents_In (idents : list string) (w : W) (ident : string)
      (outcome : Thrown + unit) :
  In (DeleteDoc ident outcome) (deleteEvents idents w) -> In ident idents.
Proof.
  revert w. induction idents as [|i idents IH]; intros w Hin; [contradiction |].
  cbn [deleteEvents] in Hin.
  destruct (deleteDoc i w) as [w1 [e|u]]; cbn [In] in Hin.
  - destruct Hin as [Heq|[]]. injection Heq as -> _. left. reflexivity.
  - destruct Hin as [Heq|Hin].
    + injection Heq as -> _. left. reflexivity.
    + right. exact (IH w1 Hin).
Qed.

Lemma deleteEvents_length (idents : list string) (w : W) :
  count is_DeleteDoc (deleteEvents idents w) <= length idents /\
  count is_completed_delete (deleteEvents idents w)
    <= count is_DeleteDoc (deleteEvents idents w).
Proof.
  revert w. induction idents as [|i idents IH]; intro w; [split; apply le_n |].
  cbn [deleteEvents]. destruct (deleteDoc i w) as [w1 [e|u]].
  - unfold count. cbn. lia.
  - specialize (IH w1). unfold count in *. cbn. lia.
Qed.

Lemma NoDup_map_eq {A B : Type} (f : A -> B) (l : list A) (x y : A) :
  NoDup (map f l) -> In x l -> In y l -> f x = f y -> x = y.
Proof.
  induction l as [|a l IH]; intros Hnd Hx Hy E; [contradiction |].
  cbn [map] in Hnd. inversion Hnd as [|b l' Hnotin Hnd']; subst.
  destruct Hx as [<-|Hx], Hy as [<-|Hy].
  - reflexivity.
  - exfalso. apply Hnotin. rewrite E. now apply in_map.
  - exfalso. apply Hnotin. rewrite <- E. now apply in_map.
  - now apply IH.
Qed.

(** X8. Every delete [clearTestData] issues, completed or not, is for the
    non-empty identifier of a record of the render it was created in whose
    name contains "Test Project".  Deletes go by identifier: when the captured
    records have pairwise different identifiers, every captured record with
    the identifier of a delete contains the phrase, so no delete is issued
    for a record that lacks it; two records sharing an identifier are not
    told apart. *)
Theorem clearTestData_deletes_only_samples
    (projects : list TestProject) (st : State) (w : W)
    (ident : string) (outcome : Thrown + unit) :
  In (DeleteDoc ident outcome) (trace_of (clearTestData projects) st w) ->
  ident <> ""%string /\
  (exists p, In p projects /\
             includes (name p) "Test Project" = true /\
             id p = Some ident) /\
  (NoDup (map id projects) ->
   forall q, In q projects -> id q = Some ident ->
             includes (name q) "Test Project" = true).
Proof.
  intro Hin.
  assert (Hd : In ident (deletable (projectsToDelete projects))).
  { revert Hin. unfold trace_of. rewrite clearTestData_run. cbv zeta.
    destruct (deleteDocs _ w) as [w1 [e|u]]; cbn [fst snd]; intro Hin.
    - apply in_app_or in Hin. destruct Hin as [Hin|Hin]; [cases_of Hin |].
      apply in_app_or in Hin. destruct Hin as [Hin|Hin]; [| cases_of Hin].
      exact (deleteEvents_In _ _ _ _ Hin).
    - apply in_app_or in Hin. destruct Hin as [Hin|Hin]; [cases_of Hin |].
      apply in_app_or in Hin. destruct Hin as [Hin|Hin];
        [exact (deleteEvents_In _ _ _ _ Hin) |].
      exfalso. revert Hin. rewrite testConnection_run.
      destruct (getDocs w1) as [w2 [e|docs]]; cbn [fst snd app];
        intro Hin; cases_of Hin. }
  apply deletable_In in Hd. destruct Hd as (p & Hp & Hid & Htruthy).
  unfold projectsToDelete in Hp. apply filter_In in Hp.
  destruct Hp as [Hp Hname].
  split; [intros ->; discriminate Htruthy |].
  split; [exists p; auto |].
  intros Hnd q Hq Hidq.
  assert (E : p = q)
    by (apply (NoDup_map_eq id projects); [exact Hnd | exact Hp | exact Hq |];
        now rewrite Hid, Hidq).
  subst q. exact Hname.
Qed.

(** X9. The deletes [clearTestData] issues are never more than the matching
    records, whose number is what its completion message reports, and these
    are never more than the captured records; the completed deletes are never
    more than the issued ones. *)
Theorem clearTestData_delete_bounds
    (projects : list TestProject) (st : State) (w : W) :
  count is_completed_delete (trace_of (clearTestData projects) st w)
    <= count is_DeleteDoc (trace_of (clearTestData projects) st w) /\
  count is_DeleteDoc (trace_of (clearTestData projects) st w)
    <= length (projectsToDelete projects) /\
  length (projectsToDelete projects) <= length projects.
Proof.
  pose proof (deleteEvents_length (deletable (projectsToDelete projects)) w) as [L1 L2].
  pose proof (deletable_length (projectsToDelete projects)) as L3.
  split; [| split; [| apply filter_length_le]];
    unfold trace_of; rewrite clearTestData_run; cbv zeta;
    destruct (deleteDocs _ w) as [w1 [e|u]]; cbn [fst snd];
    rewrite !count_app, ?testConnection_count by reflexivity;
    repeat match goal with
           | |- context [count ?p (?x :: ?l)] =>
               let v := eval cbv in (count p (x :: l)) in
               change (count p (x :: l)) with v
           end;
    lia.
Qed.


(** ** The view *)

(** X11. Once a command has run, the message line shows the component's own
    message: each of the three handlers ends with a non-empty message, so the
    invitation to click "Test Connection" is not shown again. *)
Theorem message_line_after_a_command
    (st : State) (w : W) (projects : list TestProject) :
  let shows (st' : State) :=
    message st' <> ""%string /\ messageLine (W:=W) (render st') = message st' in
  shows (state_after testConnection st w) /\
  shows (state_after addTestData st w) /\
  shows (state_after (clearTestData projects) st w).
Proof.
  cbv zeta. unfold state_after.
  rewrite addTestData_run, clearTestData_run. cbv zeta.
  split; [| split].
  - rewrite testConnection_run.
    destruct (getDocs w) as [w1 [e|docs]];
      cbn [fst snd message render messageLine String.append];
      split; [discriminate | reflexivity | discriminate | reflexivity].
  - destruct (addDoc _ _) as [w4 [e|ref]]; cbn [fst snd].
    + cbn [message render messageLine String.append].
      split; [discriminate | reflexivity].
    + rewrite testConnection_run.
      destruct (getDocs w4) as [w5 [e|docs]];
        cbn [fst snd message with_isLoading render messageLine String.append];
        split; [discriminate | reflexivity | discriminate | reflexivity].
  - destruct (deleteDocs _ w) as [w1 [e|u]]; cbn [fst snd].
    + cbn [message render messageLine String.append].
      split; [discriminate | reflexivity].
    + rewrite testConnection_run.
      destruct (getDocs w1) as [w2 [e|docs]];
        cbn [fst snd message with_isLoading render messageLine String.append];
        split; [discriminate | reflexivity | discriminate | reflexivity].
Qed.

(** X12. How the three buttons depend on each other in any render: the
    clear button is enabled only when the add button is, and then there are
    records on display; the add button is enabled only when the status is
    success and no command is running; while a probe is running all three
    are disabled. *)
Theorem buttons_enabled_in_order (st : State) :
  (disabled (clearButton (W:=W) (render st)) = false ->
   disabled (addButton (W:=W) (render st)) = false /\ testProjects st <> []) /\
  (disabled (addButton (W:=W) (render st)) = false ->
   status st = Success /\ isLoading st = false) /\
  (status st = Testing ->
   disabled (testButton (W:=W) (render st)) = true /\
   disabled (addButton (W:=W) (render st)) = true /\
   disabled (clearButton (W:=W) (render st)) = true).
Proof.
  cbn [render testButton addButton clearButton disabled].
  split; [| split].
  - intro Hc. apply orb_false_elim in Hc. destruct Hc as [Ha Hlen].
    split; [exact Ha |]. intro Hnil. rewrite Hnil in Hlen. discriminate.
  - intro Ha. apply orb_false_elim in Ha. destruct Ha as [Hs Hb].
    split; [| exact Hb]. destruct (status st); try discriminate. reflexivity.
  - intros ->. repeat split.
Qed.

(** ** The live subscription *)

(** X13. The real-time status is set to connected by a data tick and by
    nothing else: the three handlers and the cleanup never write it, and the
    effect writes it only to mark a failed set-up as disconnected, so opening
    the subscription does not by itself show the connection as live. *)
Theorem only_a_tick_marks_connected
    (st : State) (w : W) (projects : list TestProject) :
  count is_SetRealTimeStatus (trace_of testConnection st w) = 0 /\
  count is_SetRealTimeStatus (trace_of addTestData st w) = 0 /\
  count is_SetRealTimeStatus (trace_of (clearTestData projects) st w) = 0 /\
  (forall held_handle,
     count is_SetRealTimeStatus (trace_of (cleanup held_handle) st w) = 0) /\
  (forall s,
     match result_of (effect s) st w with
     | inr (Some handle) =>
         trace_of (effect s) st w = [OnSnapshot (inr handle)] /\
         state_after (effect s) st w = st
     | inr None =>
         state_after (effect s) st w = st \/
         state_after (effect s) st w = with_realTimeStatus Disconnected st
     | inl _ => False
     end).
Proof.
  split; [apply testConnection_count; reflexivity |].
  split.
  { unfold trace_of. rewrite addTestData_run. cbv zeta.
    destruct (addDoc _ _) as [w4 [e|ref]]; cbn [fst snd]; [reflexivity |].
    rewrite !count_app, testConnection_count by reflexivity. reflexivity. }
  split.
  { unfold trace_of. rewrite clearTestData_run. cbv zeta.
    destruct (deleteDocs _ w) as [w1 [e|u]]; cbn [fst snd];
      rewrite !count_app, ?testConnection_count, deleteEvents_count by reflexivity;
      reflexivity. }
  split.
  { intros [handle|]; [| reflexivity].
    unfold trace_of, cleanup, call. cbn [fst snd].
    destruct (callUnsubscribe handle w) as [w1 r]. reflexivity. }
  intro s. unfold result_of, trace_of, state_after, effect, testRealTime.
  destruct s; try (left; reflexivity).
  unfold try_catch, bind, call, ret, setRealTimeStatus, console_error, set.
  cbn [fst snd].
  destruct (onSnapshot w) as [w1 [e|handle]]; cbn [fst snd].
  - right. reflexivity.
  - split; reflexivity.
Qed.

Lemma ConnectionStatus_eqb_eq (a b : ConnectionStatus) :
  ConnectionStatus_eqb a b = true <-> a = b.
Proof. destruct a, b; split; intro E; try reflexivity; discriminate. Qed.

(** After a commit the mounted effect is the one for the status on display,
    and it holds a handle only if that status is success. *)
Lemma commit_shape (mounted : option Mounted) (st : State) (w : W) :
  (forall m, mounted = Some m -> unsubscribe m <> None -> deps m = Success) ->
  forall m', snd (commit mounted (st, w)) = inr m' ->
  exists mm, m' = Some mm /\ deps mm = status st /\
             (unsubscribe mm <> None -> deps mm = Success).
Proof.
  intros Hwf m'. unfold commit. cbn [fst].
  destruct mounted as [[d u]|]; cbn [deps unsubscribe].
  - destruct (ConnectionStatus_eqb d (status st)) eqn:E.
    + apply ConnectionStatus_eqb_eq in E. cbn. intro R. injection R as <-.
      eexists. split; [reflexivity |]. split; [exact E |].
      exact (Hwf _ eq_refl).
    + unfold cleanup, effect, testRealTime,
        try_catch, bind, call, ret, setRealTimeStatus, console_error, set.
      destruct u as [handle|]; cbn [fst snd];
        try destruct (callUnsubscribe handle w) as [w1 [x|[]]]; cbn [fst snd];
        try discriminate;
        destruct (status st); cbn [fst snd];
        try match goal with
            | |- context [onSnapshot ?w'] => destruct (onSnapshot w') as [w2 [x|h2]]
            end;
        cbn [fst snd]; intro R; injection R as <-;
        (eexists; split; [reflexivity |]; split; [reflexivity |];
         cbn [deps unsubscribe]; intro Hn; try reflexivity;
         exfalso; apply Hn; reflexivity).
  - unfold effect, testRealTime,
      try_catch, bind, call, ret, setRealTimeStatus, console_error, set.
    destruct (status st); cbn [fst snd];
      try match goal with
          | |- context [onSnapshot ?w'] => destruct (onSnapshot w') as [w2 [x|h2]]
          end;
      cbn [fst snd]; intro R; injection R as <-;
      (eexists; split; [reflexivity |]; split; [reflexivity |];
       cbn [deps unsubscribe]; intro Hn; try reflexivity;
       exfalso; apply Hn; reflexivity).
Qed.

Lemma commits_invariant (renders : list ConnectionStatus) :
  forall (mounted : option Mounted) (e : State * W) (m : option Mounted),
    (forall m0, mounted = Some m0 -> unsubscribe m0 <> None -> deps m0 = Success) ->
    snd (commits renders mounted e) = inr m ->
    (forall m0, m = Some m0 -> unsubscribe m0 <> None -> deps m0 = Success) /\
    released (snd (fst (commits renders mounted e))) ++ held m
      = held mounted ++ established (snd (fst (commits renders mounted e))) /\
    (renders <> [] -> exists mm, m = Some mm /\ deps mm = last renders Idle).
Proof.
  induction renders as [|s renders IH]; intros mounted e m Hwf R.
  - cbn in R. injection R as <-. cbn. rewrite app_nil_r.
    split; [exact Hwf |]. split; [reflexivity |]. intro Hne. contradiction.
  - cbn [commits] in *. unfold bind in *.
    pose proof (commit_balance mounted (with_status s (fst e), snd e)) as Hb.
    pose proof (commit_shape mounted (with_status s (fst e)) (snd e) Hwf) as Hs.
    destruct (commit mounted (with_status s (fst e), snd e)) as [[e1 t1] [x|m1]];
      cbn [fst snd] in *; [discriminate |].
    destruct (Hs m1 eq_refl) as (mm1 & -> & Hdeps & Hwf1).
    assert (Hwf1' : forall m0, Some mm1 = Some m0 ->
                               unsubscribe m0 <> None -> deps m0 = Success).
    { intros m0 E. injection E as <-. exact Hwf1. }
    specialize (IH (Some mm1) e1).
    destruct (commits renders (Some mm1) e1) as [[e2 t2] r2] eqn:Ec;
      cbn [fst snd] in *.
    subst r2. destruct (IH m Hwf1' eq_refl) as (Hwfm & Hbal & Hlast).
    split; [exact Hwfm |]. split.
    + rewrite released_app, established_app, <- app_assoc, Hbal, !app_assoc, Hb.
      reflexivity.
    + intros _. destruct renders as [|s' renders'].
      * cbn in Ec. injection Ec as _ _ <-. exists mm1. split; [reflexivity |].
        exact Hdeps.
      * destruct (Hlast ltac:(discriminate)) as (mm & -> & Hd).
        exists mm. split; [reflexivity | exact Hd].
Qed.

(** X14. While the component stays mounted there is never more than one live
    subscription: after any sequence of commits, the handles established so
    far are the ones already called followed by the one still held, and one
    is held only when the status last committed is success. *)
Theorem one_live_subscription
    (renders : list ConnectionStatus) (st : State) (w : W) (m : option Mounted) :
  result_of (commits renders None) st w = inr m ->
  released (trace_of (commits renders None) st w) ++ held m
    = established (trace_of (commits renders None) st w) /\
  length (held m) <= 1 /\
  (held m <> [] -> last renders Idle = Success).
Proof.
  unfold result_of, trace_of. intro R.
  destruct (commits_invariant renders None (st, w) m) as (Hwf & Hbal & Hlast);
    [discriminate | exact R |].
  split; [exact Hbal |]. split.
  - destruct m as [[d [h|]]|]; cbn; lia.
  - intro Hheld. destruct renders as [|s renders].
    + cbn in R. injection R as <-. contradiction.
    + destruct (Hlast ltac:(discriminate)) as (mm & -> & Hd).
      rewrite <- Hd. apply (Hwf mm eq_refl).
      destruct mm as [d [h|]]; cbn in *; [discriminate | contradiction].
Qed.

Lemma commit_attempts (mounted : option Mounted) (st : State) (w : W) :
  (forall handle w0, snd (callUnsubscribe handle w0) = inr tt) ->
  count is_OnSnapshot (snd (fst (commit mounted (st, w))))
    = entries (option_map deps mounted) [status st] /\
  exists mm, snd (commit mounted (st, w)) = inr (Some mm) /\ deps mm = status st.
Proof.
  intro Hsafe. unfold commit. cbn [fst].
  unfold cleanup, effect, testRealTime,
    try_catch, bind, call, ret, setRealTimeStatus, console_error, set.
  destruct mounted as [[d u]|]; cbn [deps unsubscribe option_map fst snd].
  - destruct u as [handle|];
      destruct d, (status st); cbn [ConnectionStatus_eqb fst snd entries];
      try (pose proof (Hsafe handle w) as Hs;
           destruct (callUnsubscribe handle w) as [w1 [x|[]]];
           cbn [snd] in Hs; try discriminate Hs; cbn [fst snd]);
      try match goal with
          | |- context [onSnapshot ?w'] => destruct (onSnapshot w') as [w2 [x|h2]]
          end;
      cbn [fst snd]; (split; [reflexivity | eexists; split; reflexivity]).
  - destruct (status st); cbn [fst snd entries];
      try match goal with
          | |- context [onSnapshot ?w'] => destruct (onSnapshot w') as [w2 [x|h2]]
          end;
      cbn [fst snd]; (split; [reflexivity | eexists; split; reflexivity]).
Qed.

Lemma commits_attempts (renders : list ConnectionStatus) :
  (forall handle w0, snd (callUnsubscribe handle w0) = inr tt) ->
  forall (mounted : option Mounted) (e : State * W),
    count is_OnSnapshot (snd (fst (commits renders mounted e)))
    = entries (option_map deps mounted) renders.
Proof.
  intro Hsafe. induction renders as [|s renders IH]; intros mounted e; [reflexivity |].
  cbn [commits]. unfold bind.
  destruct (commit_attempts mounted (with_status s (fst e)) (snd e) Hsafe)
    as (Hc & mm & Hr & Hd).
  destruct (commit mounted (with_status s (fst e), snd e)) as [[e1 t1] r1];
    cbn [fst snd] in *.
  subst r1. specialize (IH (Some mm) e1).
  destruct (commits renders (Some mm) e1) as [[e2 t2] r2]; cbn [fst snd] in *.
  rewrite count_app, Hc, IH. cbn [option_map]. rewrite Hd.
  cbn [entries with_status status]. lia.
Qed.

(** X15. The component subscribes once each time the status becomes success
    and at no other time: when the handles it calls do not throw, the number
    of [onSnapshot] calls over any sequence of commits is the number of
    renders whose status is success while the one before was not. *)
Theorem subscribes_on_each_entry_into_success
    (renders : list ConnectionStatus) (st : State) (w : W) :
  (forall handle w0, snd (callUnsubscribe handle w0) = inr tt) ->
  count is_OnSnapshot (trace_of (commits renders None) st w) = entries None renders.
Proof.
  intro Hsafe. unfold trace_of.
  apply (commits_attempts renders Hsafe None (st, w)).
Qed.

End Further.

(** * The further properties on concrete stores *)


Lemma addTestData_insert_failure_witness :
  let st := Scenario.connected Scenario.samples in
  state_after addTestData st (Mem.store Scenario.samples [Some Scenario.denied])
  = mkState Success
            "❌ Failed to add test project: Missing or insufficient permissions."
            (testProjects st) false RtIdle.
Proof.
  intro st.
  assert (Hin : In (AddDoc (stamped (testProject 1767225600000) 1767225600001
                                    1767225600002) (inl Scenario.denied))
                   (trace_of addTestData st
                             (Mem.store Scenario.samples [Some Scenario.denied])))
    by (vm_compute; right; right; left; reflexivity).
  pose proof (addTestData_insert_failure _ _ _ _ Hin) as P.
  cbv zeta in P. destruct P as (_ & P & _). exact P.
Defined.


Lemma inserted_record_is_a_sample_witness :
  deletable (projectsToDelete
               [project_of_doc
                  (mkDoc "doc0" (stamped (testProject 1767225600000) 1767225600001
                                         1767225600002))])
  = ["doc0"].
Proof.
  assert (Hin : In (AddDoc (stamped (testProject 1767225600000) 1767225600001
                                    1767225600002) (inr "doc0"))
                   (trace_of addTestData initial (Mem.store [] [])))
    by (vm_compute; right; right; left; reflexivity).
  pose proof (inserted_record_is_a_sample _ _ _ _ Hin) as P.
  destruct P as (_ & _ & _ & _ & _ & P).
  apply (proj2 (P "doc0")). discriminate.
Defined.

Lemma clearTestData_deletes_only_samples_witness :
  let st := Scenario.connected Scenario.samples in
  (exists p, In p (testProjects st) /\
             includes (name p) "Test Project" = true /\
             id p = Some "b") /\
  (forall q, In q (testProjects st) -> id q = Some "b" ->
             includes (name q) "Test Project" = true).
Proof.
  intro st.
  assert (Hin : In (DeleteDoc "b" (inr tt))
                   (trace_of (clearTestData (testProjects st)) st
                             (Mem.store Scenario.samples [])))
    by (vm_compute; right; right; right; left; reflexivity).
  assert (Hnd : NoDup (map id (testProjects st))).
  { vm_compute.
    repeat (apply NoDup_cons;
            [intro Hx; repeat (destruct Hx as [Hx|Hx]; [discriminate Hx |]); exact Hx |]).
    apply NoDup_nil. }
  destruct (clearTestData_deletes_only_samples _ _ _ _ _ Hin) as (_ & P2 & P3).
  split; [exact P2 | exact (P3 Hnd)].
Defined.


Lemma buttons_enabled_in_order_witness :
  disabled (addButton (W:=Mem.World) (render (Scenario.connected Scenario.samples)))
  = false /\
  disabled (clearButton (W:=Mem.World) (render Scenario.probing)) = true.
Proof.
  pose proof (buttons_enabled_in_order (W:=Mem.World)
                (Scenario.connected Scenario.samples)) as (P1 & _ & _).
  pose proof (buttons_enabled_in_order (W:=Mem.World) Scenario.probing) as (_ & _ & P3).
  split.
  - apply P1. reflexivity.
  - apply P3. reflexivity.
Defined.

Lemma one_live_subscription_witness :
  let tr := trace_of (commits [Idle; Success; Success; Error; Success] None)
                     initial (Mem.store [] []) in
  released tr ++ [1] = established tr.
Proof.
  intro tr.
  exact (proj1 (one_live_subscription
                  [Idle; Success; Success; Error; Success] initial (Mem.store [] [])
                  (Some (mkMounted Success (Some 1))) eq_refl)).
Defined.

Lemma subscribes_on_each_entry_into_success_witness :
  count is_OnSnapshot
        (trace_of (commits [Idle; Success; Success; Error; Success] None)
                  initial (Mem.store [] []))
  = 2.
Proof.
  apply (subscribes_on_each_entry_into_success
           [Idle; Success; Success; Error; Success] initial (Mem.store [] [])).
  intros handle w0. reflexivity.
Defined.
